(** * LexoRank: a shallow embedding of the two rank generators

    The repository holds two Go files of package [lexorank]:
    - the plain-string generator ([Rank], [Ranks] over [string]), embedded in
      module [Simple];
    - the Jira generator over [Posn] values ([ParseJira], [Ranks],
      [majorRanks], [minorRanks]), embedded in module [Jira].

    Go strings are byte sequences: they are modelled as [string] (lists of
    [ascii], one per byte).  A Go [byte] in arithmetic is a [Z] in [0, 256)
    with its wrap-around written out ([wrap8]).  The batch size [n] is a Go
    [int], modelled as [Z].  The loop counter [i] starts at 0 and is only
    ever incremented, so it is a [nat]; slice bounds that the source computes
    by subtraction are [Z], since they can be negative.

    Run-time aborts (Go panics) are explicit outcomes.  The endless [for]
    loops of the source are run with fuel; [OutOfFuel] is the outcome of a
    run that is still looping when the fuel is spent.  The [fmt.Printf]
    tracing of the Jira generator has no influence on results and is left
    out. *)

From Stdlib Require Import ZArith List String Ascii Bool Lia Arith.
Import ListNotations.

Local Open Scope string_scope.
Local Open Scope Z_scope.

(** ** Outcomes of a Go call *)

Inductive panic : Type :=
| BadValue          (* panic("bad value") *)
| Todo              (* panic("TODO") *)
| IndexOutOfRange   (* runtime error: index out of range *)
| SliceOutOfRange   (* runtime error: slice bounds out of range *)
| DivideByZero.     (* runtime error: integer divide by zero *)

Inductive result (A : Type) : Type :=
| Ok (a : A)
| Panic (p : panic)
| OutOfFuel.

Arguments Ok {A} a.
Arguments Panic {A} p.
Arguments OutOfFuel {A}.

Definition bind {A B : Type} (r : result A) (k : A -> result B) : result B :=
  match r with
  | Ok a => k a
  | Panic p => Panic p
  | OutOfFuel => OutOfFuel
  end.

Notation "x <- c ;; k" := (bind c (fun x => k))
  (at level 61, c at next level, right associativity).

(** ** Bytes and strings *)

Definition byte_of (c : ascii) : Z := Z.of_N (N_of_ascii c).

Definition wrap8 (x : Z) : Z := x mod 256.

Definition len (s : string) : nat := String.length s.

(** [s[k]] for an [int] index: aborts outside [0, len(s)). *)
Definition index (s : string) (k : Z) : result ascii :=
  if (k <? 0) || (Z.of_nat (len s) <=? k) then Panic IndexOutOfRange
  else match String.get (Z.to_nat k) s with
       | Some c => Ok c
       | None => Panic IndexOutOfRange
       end.

(** [s[:h]] for an [int] bound: aborts unless [0 <= h <= len(s)]. *)
Definition slice_to (s : string) (h : Z) : result string :=
  if (h <? 0) || (Z.of_nat (len s) <? h) then Panic SliceOutOfRange
  else Ok (String.substring 0 (Z.to_nat h) s).

Definition byte_to_ascii (v : Z) : ascii := ascii_of_N (Z.to_N v).

(** [string(c)] for a byte [c]: the conversion of an integer to a string
    yields the UTF-8 encoding of the code point [c], which is the byte
    itself below 128 and two bytes from 128 on. *)
Definition string_of_byte (c : ascii) : string :=
  let v := byte_of c in
  if v <? 128 then String c EmptyString
  else String (byte_to_ascii (Z.lor 192 (Z.shiftr v 6)))
         (String (byte_to_ascii (Z.lor 128 (Z.land v 63))) EmptyString).

(** Go's [<] on strings: byte-wise lexicographic order. *)
Definition str_ltb (a b : string) : bool :=
  match String.compare a b with
  | Lt => true
  | _ => false
  end.

Definition orderToByte : string :=
  "0123456789ABCDEFGHIJKLMNOPQRSTUVWXYZabcdefghijklmnopqrstuvwxyz".

Definition minChar : ascii := "0"%char.
Definition maxChar : ascii := "z"%char.

Definition MaxMultiRank : Z := 10 + 26 + 26 - 1.

Definition getChar (s : string) (i : nat) (defaultChar : ascii) : ascii :=
  if (len s <=? i)%nat then defaultChar
  else match String.get i s with
       | Some c => c
       | None => defaultChar
       end.

(** The filling loop of [mids]:
    [for i := 0; i < n; i++ { ch[i] = orderToByte[int(prevo)+per*(i+1)] }],
    started at [i] with [cnt] iterations left. *)
Fixpoint fill (prevo per : Z) (i : nat) (cnt : nat) : result (list ascii) :=
  match cnt with
  | O => Ok []
  | S cnt' =>
      c <- index orderToByte (prevo + per * (Z.of_nat i + 1)) ;;
      rest <- fill prevo per (S i) cnt' ;;
      Ok (c :: rest)
  end.

(** ** The plain-string generator *)

Module Simple.

Definition byteToOrder (b : ascii) : Z :=
  let v := byte_of b in
  if (byte_of "0" <=? v) && (v <=? byte_of "9") then
    wrap8 (v - byte_of "0")
  else if (byte_of "A" <=? v) && (v <=? byte_of "Z") then
    wrap8 (v - byte_of "A" + 10)
  else if (byte_of "a" <=? v) && (v <=? byte_of "z") then
    wrap8 (v - byte_of "a" + 10 + 26)
  else if v <? byte_of "A" then 0
  else 10 + 26 + 26 - 1.

(** A pair [(ch, true)] is [Ok (Some ch)]; [(nil, false)] is [Ok None]. *)
Definition mids (n : Z) (prev next : ascii) : result (option (list ascii)) :=
  let prevo := byteToOrder prev in
  let nexto := byteToOrder next in
  if n + 1 =? 0 then Panic DivideByZero
  else
    let per := Z.quot (wrap8 (nexto - prevo)) (n + 1) in
    if per <? 1 then Ok None
    else
      ch <- fill prevo per 0 (Z.to_nat n) ;;
      Ok (Some ch).

(** The [for] loop of [Ranks], from the state [(rank, i)]. *)
Fixpoint Ranks_loop (fuel : nat) (n : Z) (prev next : string)
         (rank : string) (i : nat) : result (option (list string)) :=
  match fuel with
  | O => OutOfFuel
  | S fuel' =>
      let prevChar := getChar prev i minChar in
      let nextChar := getChar next i maxChar in
      if Ascii.eqb prevChar nextChar then
        Ranks_loop fuel' n prev next (rank ++ string_of_byte prevChar) (S i)
      else
        m <- mids n prevChar nextChar ;;
        match m with
        | None =>
            Ranks_loop fuel' n prev next (rank ++ string_of_byte prevChar) (S i)
        | Some midChars =>
            Ok (Some (map (fun mid => rank ++ string_of_byte mid) midChars))
        end
  end.

Definition Ranks (fuel : nat) (n : Z) (prev next : string)
  : result (option (list string)) :=
  if n >? MaxMultiRank then Ok None
  else
    let prev := if String.eqb prev "" then string_of_byte minChar else prev in
    let next := if String.eqb next "" then string_of_byte maxChar else next in
    Ranks_loop fuel n prev next "" 0.

Definition Rank (fuel : nat) (prev next : string) : result (string * bool) :=
  r <- Ranks fuel 1 prev next ;;
  match r with
  | None => Ok (prev, false)
  | Some lst => c <- match lst with
                     | x :: _ => Ok x
                     | [] => Panic IndexOutOfRange
                     end ;;
                Ok (c, true)
  end.

End Simple.

(** ** The Jira generator *)

Module Jira.

Definition _byteToOrder (b : ascii) : Z :=
  let v := byte_of b in
  if (byte_of "0" <=? v) && (v <=? byte_of "9") then
    wrap8 (v - byte_of "0")
  else if (byte_of "A" <=? v) && (v <=? byte_of "Z") then
    wrap8 (v - byte_of "A" + 10)
  else if (byte_of "a" <=? v) && (v <=? byte_of "z") then
    wrap8 (v - byte_of "a" + 10 + 26)
  else if v <? byte_of "A" then 0
  else 10 + 26 + 26 - 1.

Definition byteToOrder (b : ascii) : result Z :=
  let n := _byteToOrder b in
  if (n <? 0) || (n >? 62) then Panic BadValue
  else Ok n.

Record Posn : Type := mkPosn {
  Bucket : Z;        (* byte *)
  Major : string;
  Minor : string     (* note this includes the ":" prefix *)
}.

(** [Posn{}], the zero value. *)
Definition Posn_zero : Posn :=
  {| Bucket := 0; Major := ""; Minor := "" |}.

(** Positions compare by (bucket, major, minor), byte-wise. *)
Definition posn_ltb (p q : Posn) : bool :=
  if Bucket p <? Bucket q then true
  else if Bucket p =? Bucket q then
    if str_ltb (Major p) (Major q) then true
    else if String.eqb (Major p) (Major q) then str_ltb (Minor p) (Minor q)
    else false
  else false.

(** *** The text format *)

Definition digit (d : Z) : ascii := ascii_of_N (Z.to_N (byte_of "0" + d)).

(** The verb [%d] on a byte: its decimal numeral, 1 to 3 digits. *)
Definition format_d (b : Z) : string :=
  if b <? 10 then String (digit b) ""
  else if b <? 100 then String (digit (b / 10)) (String (digit (b mod 10)) "")
  else String (digit (b / 100))
         (String (digit ((b / 10) mod 10)) (String (digit (b mod 10)) "")).

(** [func (p Posn) String() string]:
    [fmt.Sprintf("%d|%s%s", p.Bucket, p.Major, p.Minor)]. *)
Definition Posn_String (p : Posn) : string :=
  format_d (Bucket p) ++ "|" ++ Major p ++ Minor p.

(** The character classes of the pattern [jiraRank]: from the start of
    the text, one of the digits 0, 1 and 2 (group 1), a bar, one or more
    characters of 0-9 and a-z (group 2), then optionally a colon followed
    by any number of characters of 0-9 and a-z (group 3), up to the end of
    the text. *)
Definition is_012 (c : ascii) : bool :=
  (byte_of "0" <=? byte_of c) && (byte_of c <=? byte_of "2").

Definition is_09az (c : ascii) : bool :=
  ((byte_of "0" <=? byte_of c) && (byte_of c <=? byte_of "9"))
  || ((byte_of "a" <=? byte_of c) && (byte_of c <=? byte_of "z")).

(** The longest prefix of [s] made of 0-9 and a-z, and the rest of [s]. *)
Fixpoint span_09az (s : string) : string * string :=
  match s with
  | EmptyString => (EmptyString, EmptyString)
  | String c s' =>
      if is_09az c then
        let (m, r) := span_09az s' in (String c m, r)
      else (EmptyString, s)
  end.

(** [jiraRank.FindStringSubmatch(rank)]: the groups [m[1]], [m[2]], [m[3]]
    of the match, or [None] for [nil].  The pattern is anchored at both
    ends and a run of 0-9 and a-z can only be followed by [:] or the end of the
    text, so the greedy run is the only way to match; a group that takes no
    part in the match is the empty string. *)
Definition jiraRank_FindStringSubmatch (rank : string)
  : option (ascii * string * string) :=
  match rank with
  | String b (String bar rest) =>
      if is_012 b && Ascii.eqb bar "|" then
        let (major, rest1) := span_09az rest in
        if String.eqb major "" then None
        else
          match rest1 with
          | EmptyString => Some (b, major, "")
          | String colon rest2 =>
              if Ascii.eqb colon ":" then
                let (minor, rest3) := span_09az rest2 in
                if String.eqb rest3 "" then
                  Some (b, major, String colon minor)
                else None
              else None
          end
      else None
  | _ => None
  end.

Definition ParseJira (rank : string) : Posn * bool :=
  match jiraRank_FindStringSubmatch rank with
  | None => (Posn_zero, false)
  | Some (m1, m2, m3) =>
      ({| Bucket := wrap8 (byte_of m1 - byte_of "0");
          Major := m2;
          Minor := m3 |}, true)
  end.

(** *** Rank generation *)

Definition mids (n : Z) (prev next : ascii) : result (option (list ascii)) :=
  prevo <- byteToOrder prev ;;
  nexto <- byteToOrder next ;;
  if n + 1 =? 0 then Panic DivideByZero
  else
    let per := Z.quot (wrap8 (nexto - prevo)) (n + 1) in
    if per <? 1 then Ok None
    else
      ch <- fill prevo per 0 (Z.to_nat n) ;;
      Ok (Some ch).

Definition minorRanks (n : Z) (prev next : Posn)
  : result (option (list Posn)) :=
  Panic Todo.

Definition max (a b : Z) : Z :=
  if a >? b then a else b.

Definition trailer : string := "UUUUUUUU".

(** The variables that the [for] loop of [majorRanks] reads and writes:
    [prev.Major], [next.Major], [rank] and [i]. *)
Record loop_state : Type := mkState {
  prevMajor : string;
  nextMajor : string;
  rank : string;
  i : nat
}.

(** One pass through the loop body either goes round again ([continue])
    or leaves the function ([return]). *)
Inductive step : Type :=
| Continue (st : loop_state)
| Return (r : option (list Posn)).

Definition majorRanks_body (n : Z) (bucket : Z) (majorLen : Z)
           (st : loop_state) : result step :=
  let prevChar := getChar (prevMajor st) (i st) minChar in
  let nextChar := getChar (nextMajor st) (i st) maxChar in
  if Ascii.eqb prevChar nextChar then
    (* common prefix *)
    Ok (Continue {| prevMajor := prevMajor st;
                    nextMajor := nextMajor st;
                    rank := rank st ++ string_of_byte prevChar;
                    i := S (i st) |})
  else
    m <- mids n prevChar nextChar ;;
    match m with
    | None =>
        (* fork in the road: adjust the bounds *)
        prevAfter <- byteToOrder (getChar (prevMajor st) (i st + 1) minChar) ;;
        nextAfter <- byteToOrder (getChar (nextMajor st) (i st + 1) maxChar) ;;
        let spaceAfterPrev := wrap8 (MaxMultiRank - prevAfter) in
        let spaceBeforeNext := nextAfter in
        if spaceAfterPrev >? spaceBeforeNext then
          pre <- slice_to (nextMajor st) (Z.of_nat (i st)) ;;
          Ok (Continue {| prevMajor := prevMajor st;
                          nextMajor := pre ++ string_of_byte prevChar;
                          rank := rank st ++ string_of_byte prevChar;
                          i := S (i st) |})
        else
          pre <- slice_to (prevMajor st) (Z.of_nat (i st)) ;;
          Ok (Continue {| prevMajor := pre ++ string_of_byte nextChar;
                          nextMajor := nextMajor st;
                          rank := rank st ++ string_of_byte nextChar;
                          i := S (i st) |})
    | Some midChars =>
        if Z.of_nat (len (rank st)) =? majorLen then Ok (Return None)
        else
          (* attach a trailer so that the majors are all the same size *)
          tr <- slice_to trailer (majorLen - 1 - Z.of_nat (len (rank st))) ;;
          Ok (Return (Some (map (fun mid =>
                                   {| Bucket := bucket;
                                      Major := rank st ++ string_of_byte mid ++ tr;
                                      Minor := ":" |}) midChars)))
    end.

Fixpoint majorRanks_loop (fuel : nat) (n : Z) (bucket : Z) (majorLen : Z)
         (st : loop_state) : result (option (list Posn)) :=
  match fuel with
  | O => OutOfFuel
  | S fuel' =>
      s <- majorRanks_body n bucket majorLen st ;;
      match s with
      | Continue st' => majorRanks_loop fuel' n bucket majorLen st'
      | Return r => Ok r
      end
  end.

Definition majorRanks (fuel : nat) (n : Z) (prev next : Posn)
  : result (option (list Posn)) :=
  let majorLen := max (Z.of_nat (len (Major prev)))
                      (Z.of_nat (len (Major next))) in
  majorRanks_loop fuel n (Bucket prev) majorLen
    {| prevMajor := Major prev; nextMajor := Major next;
       rank := ""; i := 0 |}.

(** The bounds that [Ranks] works with once a [nil] pointer has been
    replaced by its default. *)
Definition lower_bound (prev next : option Posn) : Posn :=
  match prev with
  | Some p => p
  | None =>
      {| Bucket := match next with
                   | Some nx => Bucket nx   (* adopt its bucket *)
                   | None => 0
                   end;
         Major := "000000";
         Minor := ":" |}
  end.

Definition upper_bound (prev next : option Posn) : Posn :=
  match next with
  | Some nx => nx
  | None =>
      (* [prev] is never [nil] at this point *)
      {| Bucket := Bucket (lower_bound prev next);
         Major := "zzzzzz";
         Minor := ":" |}
  end.

Definition Ranks (fuel : nat) (n : Z) (prev next : option Posn)
  : result (option (list Posn)) :=
  if n >? MaxMultiRank then Ok None
  else
    let prev' := lower_bound prev next in
    let next' := upper_bound prev next in
    if negb (String.eqb (Major prev') (Major next')) then
      r <- majorRanks fuel n prev' next' ;;
      match r with
      | Some p => Ok (Some p)
      | None => minorRanks n prev' next'
      end
    else minorRanks n prev' next'.

End Jira.

(** ** Auxiliary definitions for the statements *)

(** [k] copies of the byte [c]. *)
Fixpoint rep (c : ascii) (k : nat) : string :=
  match k with
  | O => EmptyString
  | S k' => String c (rep c k')
  end.

(** Every byte of [s] satisfies [f]. *)
Fixpoint all_chars (f : ascii -> bool) (s : string) : bool :=
  match s with
  | EmptyString => true
  | String c s' => f c && all_chars f s'
  end.

(** [c] is one of the bytes of [s]. *)
Fixpoint mem_char (c : ascii) (s : string) : bool :=
  match s with
  | EmptyString => false
  | String d s' => Ascii.eqb c d || mem_char c s'
  end.

(** The 62 symbols of the alphabet. *)
Definition is_symbol (c : ascii) : bool := mem_char c orderToByte.

(** The state in which the loop of [Jira.majorRanks] starts. *)
Definition init_state (prev next : Jira.Posn) : Jira.loop_state :=
  {| Jira.prevMajor := Jira.Major prev; Jira.nextMajor := Jira.Major next;
     Jira.rank := ""; Jira.i := 0 |}.

(** The state after [k] passes through the loop body that all ended in
    [continue]; [None] if one of them returned or aborted. *)
Fixpoint passes (k : nat) (n bucket majorLen : Z) (st : Jira.loop_state)
  : option Jira.loop_state :=
  match k with
  | O => Some st
  | S k' =>
      match Jira.majorRanks_body n bucket majorLen st with
      | Ok (Jira.Continue st') => passes k' n bucket majorLen st'
      | _ => None
      end
  end.

(** The two capacities that the loop body compares when [mids] finds no
    room at index [i]. *)
Definition spaceAfterPrev (st : Jira.loop_state) : Z :=
  wrap8 (MaxMultiRank
         - Jira._byteToOrder (getChar (Jira.prevMajor st) (Jira.i st + 1) minChar)).

Definition spaceBeforeNext (st : Jira.loop_state) : Z :=
  Jira._byteToOrder (getChar (Jira.nextMajor st) (Jira.i st + 1) maxChar).

(** The bytes below 128, which convert to one-byte strings. *)
Definition is_ascii (c : ascii) : bool := byte_of c <? 128.

(** The loop state is at an index of at most [L], with ASCII majors of at
    most [L] bytes. *)
Definition bounded (L : nat) (st : Jira.loop_state) : Prop :=
  (Jira.i st <= L)%nat
  /\ (len (Jira.prevMajor st) <= L)%nat
  /\ (len (Jira.nextMajor st) <= L)%nat
  /\ all_chars is_ascii (Jira.prevMajor st) = true
  /\ all_chars is_ascii (Jira.nextMajor st) = true.

(** The bytes that the plain-string loop appends to [rank] over [k] passes
    from index [j] that all go round again: the bytes of the lower bound,
    or the default byte beyond its end, each converted to a string. *)
Fixpoint lower_run (prev : string) (j k : nat) : string :=
  match k with
  | O => EmptyString
  | S k' => string_of_byte (getChar prev j minChar) ++ lower_run prev (S j) k'
  end.

(** ** Basic facts *)

(** Turns the boolean tests of the source into propositions. *)
Ltac tests :=
  repeat match goal with
    | H : (_ || _) = true |- _ => apply orb_true_iff in H
    | H : (_ || _) = false |- _ => apply orb_false_iff in H; destruct H
    | H : (_ && _) = true |- _ => apply andb_true_iff in H; destruct H
    | H : (_ && _) = false |- _ => apply andb_false_iff in H
    | H : negb _ = true |- _ => apply negb_true_iff in H
    | H : negb _ = false |- _ => apply negb_false_iff in H
    | H : (_ <? _) = true |- _ => apply Z.ltb_lt in H
    | H : (_ <? _) = false |- _ => apply Z.ltb_ge in H
    | H : (_ <=? _) = true |- _ => apply Z.leb_le in H
    | H : (_ <=? _) = false |- _ => apply Z.leb_gt in H
    | H : (_ >? _) = true |- _ => rewrite Z.gtb_ltb in H
    | H : (_ >? _) = false |- _ => rewrite Z.gtb_ltb in H
    | H : (_ =? _) = true |- _ => apply Z.eqb_eq in H
    | H : (_ =? _) = false |- _ => apply Z.eqb_neq in H
    | H : (_ <=? _)%nat = true |- _ => apply Nat.leb_le in H
    | H : (_ <=? _)%nat = false |- _ => apply Nat.leb_gt in H
    end.

Lemma byte_of_range (c : ascii) : 0 <= byte_of c < 256.
Proof.
  unfold byte_of.
  pose proof (N_ascii_bounded c) as H.
  lia.
Qed.

Lemma order_range (b : ascii) : 0 <= Jira._byteToOrder b <= 61.
Proof.
  destruct b as [[] [] [] [] [] [] [] []]; vm_compute; split; discriminate.
Qed.

Lemma order_same (b : ascii) : Simple.byteToOrder b = Jira._byteToOrder b.
Proof. reflexivity. Qed.

(** The range check of [byteToOrder] never fires. *)
Lemma byteToOrder_ok (b : ascii) :
  Jira.byteToOrder b = Ok (Jira._byteToOrder b).
Proof.
  unfold Jira.byteToOrder.
  pose proof (order_range b) as H.
  destruct (Jira._byteToOrder b <? 0) eqn:E1; [lia|].
  destruct (Jira._byteToOrder b >? 62) eqn:E2; [lia|].
  reflexivity.
Qed.

(** Both files compute the same [mids]. *)
Lemma mids_same (n : Z) (a b : ascii) : Jira.mids n a b = Simple.mids n a b.
Proof.
  unfold Jira.mids, Simple.mids.
  rewrite !byteToOrder_ok.
  reflexivity.
Qed.

(** ** Concrete scenarios *)

(** C8. With lower major "0" and upper major "z", a batch of 1 is the single
    major "U" and a batch of 3 is "F", "U", "j" in that order, in both
    generators: the spacing is (61 - 0) div (n + 1), that is 30 and 15, and
    the j-th symbol is the one at ordinal 0 + spacing * j. *)
Theorem C8_zero_to_z :
  forall (fuel : nat) (b1 b2 : Z) (m1 m2 : string),
    Jira.Ranks (S fuel) 1 (Some (Jira.mkPosn b1 "0" m1))
                          (Some (Jira.mkPosn b2 "z" m2))
    = Ok (Some [Jira.mkPosn b1 "U" ":"])
    /\ Jira.Ranks (S fuel) 3 (Some (Jira.mkPosn b1 "0" m1))
                             (Some (Jira.mkPosn b2 "z" m2))
       = Ok (Some [Jira.mkPosn b1 "F" ":"; Jira.mkPosn b1 "U" ":";
                   Jira.mkPosn b1 "j" ":"])
    /\ Simple.Ranks (S fuel) 1 "0" "z" = Ok (Some ["U"])
    /\ Simple.Ranks (S fuel) 3 "0" "z" = Ok (Some ["F"; "U"; "j"])
    /\ Jira._byteToOrder "0" = 0 /\ Jira._byteToOrder "z" = 61
    /\ Z.quot (61 - 0) (1 + 1) = 30 /\ Z.quot (61 - 0) (3 + 1) = 15
    /\ Jira.mids 1 "0" "z" = Ok (Some ["U"%char])
    /\ Jira.mids 3 "0" "z" = Ok (Some ["F"%char; "U"%char; "j"%char])
    /\ index orderToByte (0 + 30 * 1) = Ok "U"%char
    /\ index orderToByte (0 + 15 * 1) = Ok "F"%char
    /\ index orderToByte (0 + 15 * 2) = Ok "U"%char
    /\ index orderToByte (0 + 15 * 3) = Ok "j"%char.
Proof.
  intros fuel b1 b2 m1 m2.
  repeat split; vm_compute; reflexivity.
Qed.

(** C1, at an input where the ordering fails.  The lower position
    (0, "a00", ":") sorts strictly below the upper position (0, "b", ":"),
    generation of one rank succeeds, and the rank it returns, with major
    "bUU", sorts above the upper bound.  The plain-string generator does the
    same on "a" and "a0": it returns "a0U". *)
Theorem C1_rank_above_upper_bound :
  forall fuel : nat,
    let lower := Jira.mkPosn 0 "a00" ":" in
    let upper := Jira.mkPosn 0 "b" ":" in
    let got := Jira.mkPosn 0 "bUU" ":" in
    Jira.posn_ltb lower upper = true
    /\ Jira.Ranks (2 + fuel) 1 (Some lower) (Some upper) = Ok (Some [got])
    /\ Jira.posn_ltb got upper = false
    /\ Jira.posn_ltb upper got = true
    /\ str_ltb "a" "a0" = true
    /\ Simple.Ranks (3 + fuel) 1 "a" "a0" = Ok (Some ["a0U"])
    /\ str_ltb "a0U" "a0" = false
    /\ str_ltb "a0" "a0U" = true.
Proof.
  intros fuel.
  repeat split; vm_compute; reflexivity.
Qed.

(** C3, at the adjacent majors "A" and "B" with a batch of 1.  The search
    over the majors ends with ok = false, but [Ranks] then enters
    [minorRanks] and the call aborts; the plain-string generator returns
    "AU" with ok = true. *)
Theorem C3_adjacent_symbols :
  forall (fuel : nat) (b1 b2 : Z) (m1 m2 : string),
    Jira.majorRanks (2 + fuel) 1 (Jira.mkPosn b1 "A" m1) (Jira.mkPosn b2 "B" m2)
    = Ok None
    /\ Jira.Ranks (2 + fuel) 1 (Some (Jira.mkPosn b1 "A" m1))
                               (Some (Jira.mkPosn b2 "B" m2))
       = Panic Todo
    /\ Simple.Ranks (2 + fuel) 1 "A" "B" = Ok (Some ["AU"])
    /\ Simple.Rank (2 + fuel) "A" "B" = Ok ("AU", true).
Proof.
  intros fuel b1 b2 m1 m2.
  repeat split; vm_compute; reflexivity.
Qed.

(** ** Strings of one repeated byte *)

Lemma len_rep (c : ascii) (k : nat) : len (rep c k) = k.
Proof.
  unfold len.
  induction k as [|k IH]; simpl; [reflexivity|].
  now rewrite IH.
Qed.

Lemma get_rep_lt (c : ascii) (k j : nat) :
  (j < k)%nat -> String.get j (rep c k) = Some c.
Proof.
  revert j. induction k as [|k IH]; intros j Hj; [lia|].
  destruct j as [|j]; simpl; [reflexivity|].
  apply IH. lia.
Qed.

(** Beyond its end a string reads as the default byte. *)
Lemma getChar_default (s : string) (j : nat) (d : ascii) :
  (len s <= j)%nat -> getChar s j d = d.
Proof.
  intros H. unfold getChar.
  destruct (len s <=? j)%nat eqn:E; [reflexivity|].
  apply Nat.leb_gt in E. lia.
Qed.

Lemma getChar_rep_same (c : ascii) (k j : nat) : getChar (rep c k) j c = c.
Proof.
  unfold getChar.
  destruct (len (rep c k) <=? j)%nat eqn:E; [reflexivity|].
  apply Nat.leb_gt in E. rewrite len_rep in E.
  now rewrite get_rep_lt.
Qed.

Lemma substring_all (s : string) : String.substring 0 (String.length s) s = s.
Proof.
  induction s as [|c s IH]; simpl; [reflexivity|].
  now rewrite IH.
Qed.

Lemma slice_to_all (s : string) : slice_to s (Z.of_nat (len s)) = Ok s.
Proof.
  unfold slice_to.
  destruct (Z.of_nat (len s) <? 0) eqn:E1; [tests; lia|].
  destruct (Z.of_nat (len s) <? Z.of_nat (len s)) eqn:E2; [tests; lia|].
  simpl. rewrite Nat2Z.id. unfold len. now rewrite substring_all.
Qed.

(** Below 128 a byte converts to the one-byte string that holds it. *)
Lemma string_of_byte_ascii (c : ascii) :
  byte_of c < 128 -> string_of_byte c = String c "".
Proof.
  intros H. unfold string_of_byte.
  destruct (byte_of c <? 128) eqn:E; [reflexivity|].
  tests. lia.
Qed.

Lemma rep_snoc (c : ascii) (k : nat) :
  byte_of c < 128 -> rep c k ++ string_of_byte c = rep c (S k).
Proof.
  intros H. rewrite string_of_byte_ascii by exact H.
  induction k as [|k IH]; simpl; [reflexivity|].
  simpl in IH. now rewrite IH.
Qed.

(** ** A batch of 61 never finds room *)

Lemma getChar_0_min (j : nat) : getChar "0" j minChar = "0"%char.
Proof. destruct j; reflexivity. Qed.

Lemma getChar_z_max (j : nat) : getChar "z" j maxChar = "z"%char.
Proof. destruct j; reflexivity. Qed.

Lemma simple_loop_61 (fuel : nat) :
  forall (r : string) (j : nat),
    Simple.Ranks_loop fuel 61 "0" "z" r j = OutOfFuel.
Proof.
  induction fuel as [|fuel IH]; intros r j; [reflexivity|].
  cbn [Simple.Ranks_loop].
  rewrite getChar_0_min, getChar_z_max.
  replace (Simple.mids 61 "0" "z") with (@Ok (option (list ascii)) None)
    by (vm_compute; reflexivity).
  cbn. apply IH.
Qed.

(** Once the lower major has been rewritten to [k] copies of "z" and the
    upper major is all "z", every pass rewrites the lower major again. *)
Lemma jira_body_61 (bucket majorLen : Z) (k m : nat) (r : string) :
  Jira.majorRanks_body 61 bucket majorLen
    (Jira.mkState (rep "z" k) (rep "z" m) r k)
  = Ok (Jira.Continue
          (Jira.mkState (rep "z" (S k)) (rep "z" m) (r ++ "z") (S k))).
Proof.
  unfold Jira.majorRanks_body.
  cbn [Jira.prevMajor Jira.nextMajor Jira.rank Jira.i].
  rewrite (getChar_default (rep "z" k) k) by (rewrite len_rep; lia).
  rewrite (getChar_default (rep "z" k) (k + 1)) by (rewrite len_rep; lia).
  unfold maxChar. rewrite !getChar_rep_same.
  replace (Jira.mids 61 minChar "z") with (@Ok (option (list ascii)) None)
    by (vm_compute; reflexivity).
  replace (Ascii.eqb minChar "z") with false by reflexivity.
  replace (Jira.byteToOrder minChar) with (Ok 0) by reflexivity.
  replace (Jira.byteToOrder "z") with (Ok 61) by reflexivity.
  cbn [bind].
  replace (wrap8 (MaxMultiRank - 0) >? 61) with false by reflexivity.
  rewrite <- (len_rep "z" k) at 2.
  rewrite slice_to_all. cbn [bind].
  rewrite rep_snoc by reflexivity. reflexivity.
Qed.

Lemma jira_loop_61 (fuel : nat) :
  forall (bucket majorLen : Z) (k m : nat) (r : string),
    Jira.majorRanks_loop fuel 61 bucket majorLen
      (Jira.mkState (rep "z" k) (rep "z" m) r k) = OutOfFuel.
Proof.
  induction fuel as [|fuel IH]; intros bucket majorLen k m r; [reflexivity|].
  cbn [Jira.majorRanks_loop].
  rewrite jira_body_61. cbn [bind].
  apply IH.
Qed.

(** C2, at a batch size of 61.  With majors "0" and "z", and also with both
    bounds absent, the loop is still running when the fuel is spent,
    whatever the fuel: the call never returns, in either generator. *)
Theorem C2_batch_61_never_returns :
  forall (fuel : nat) (b1 b2 : Z) (m1 m2 : string),
    Jira.Ranks fuel 61 (Some (Jira.mkPosn b1 "0" m1))
                       (Some (Jira.mkPosn b2 "z" m2)) = OutOfFuel
    /\ Jira.Ranks fuel 61 None None = OutOfFuel
    /\ Simple.Ranks fuel 61 "0" "z" = OutOfFuel
    /\ Simple.Ranks fuel 61 "" "" = OutOfFuel.
Proof.
  intros fuel b1 b2 m1 m2.
  repeat split.
  - destruct fuel as [|fuel]; [reflexivity|].
    unfold Jira.Ranks, Jira.majorRanks.
    cbn -[Jira.majorRanks_loop].
    cbn [Jira.majorRanks_loop].
    change (Jira.majorRanks_body 61 b1 1 (Jira.mkState "0" "z" "" 0))
      with (Ok (Jira.Continue (Jira.mkState (rep "z" 1) (rep "z" 1) "z" 1))).
    cbn [bind]. now rewrite jira_loop_61.
  - destruct fuel as [|fuel]; [reflexivity|].
    unfold Jira.Ranks, Jira.majorRanks.
    cbn -[Jira.majorRanks_loop].
    cbn [Jira.majorRanks_loop].
    change (Jira.majorRanks_body 61 0 6 (Jira.mkState "000000" "zzzzzz" "" 0))
      with (Ok (Jira.Continue (Jira.mkState (rep "z" 1) (rep "z" 6) "z" 1))).
    cbn [bind]. now rewrite jira_loop_61.
  - unfold Simple.Ranks. cbn -[Simple.Ranks_loop]. apply simple_loop_61.
  - unfold Simple.Ranks. cbn -[Simple.Ranks_loop]. apply simple_loop_61.
Qed.

(** ** The minor path *)

(** C4 as the claim states it fails.  The batch-size check comes first: a
    call with n = 62 and two equal majors returns (nil, false) and never
    reaches [minorRanks]. *)
Lemma C4_batch_check_comes_first :
  ~ (forall (fuel : nat) (n : Z) (prev next : option Jira.Posn),
        (Jira.Major (Jira.lower_bound prev next)
         = Jira.Major (Jira.upper_bound prev next)
         \/ Jira.majorRanks fuel n (Jira.lower_bound prev next)
                                   (Jira.upper_bound prev next) = Ok None) ->
        Jira.Ranks fuel n prev next = Panic Todo).
Proof.
  intros H.
  specialize (H 1%nat 62 (Some (Jira.mkPosn 0 "a" ":"))
                (Some (Jira.mkPosn 0 "a" ":")) (or_introl eq_refl)).
  vm_compute in H. discriminate.
Qed.

(** C4, amended.  [minorRanks] aborts on every input.  A call of [Ranks]
    that passes the batch-size check (n at most 61) and whose two majors
    (after the defaults for absent bounds) are equal, or whose search over
    the majors ends with ok = false, enters [minorRanks] and so aborts: it
    returns neither ranks nor a failure flag. *)
Theorem C4_minor_path_aborts :
  forall (fuel : nat) (n : Z) (prev next : option Jira.Posn),
    n <= MaxMultiRank ->
    (Jira.Major (Jira.lower_bound prev next)
     = Jira.Major (Jira.upper_bound prev next)
     \/ Jira.majorRanks fuel n (Jira.lower_bound prev next)
                               (Jira.upper_bound prev next) = Ok None) ->
    (forall (n' : Z) (p q : Jira.Posn), Jira.minorRanks n' p q = Panic Todo)
    /\ Jira.Ranks fuel n prev next = Panic Todo.
Proof.
  intros fuel n prev next Hn Hpath.
  split; [reflexivity|].
  unfold Jira.Ranks.
  destruct (n >? MaxMultiRank) eqn:E; [tests; lia|].
  destruct Hpath as [Heq | Hnone].
  - rewrite Heq, String.eqb_refl. reflexivity.
  - destruct (negb _); [|reflexivity].
    rewrite Hnone. reflexivity.
Qed.

Lemma C4_minor_path_aborts_witness :
  1 <= MaxMultiRank
  /\ Jira.Ranks 2 1 (Some (Jira.mkPosn 0 "a" ":")) (Some (Jira.mkPosn 0 "a" ":x"))
     = Panic Todo
  /\ Jira.Ranks 2 1 (Some (Jira.mkPosn 0 "a" ":")) (Some (Jira.mkPosn 0 "b" ":"))
     = Panic Todo.
Proof.
  split; [vm_compute; discriminate|].
  split.
  - apply (C4_minor_path_aborts 2 1 (Some (Jira.mkPosn 0 "a" ":"))
                                (Some (Jira.mkPosn 0 "a" ":x"))).
    + vm_compute; discriminate.
    + left. reflexivity.
  - apply (C4_minor_path_aborts 2 1 (Some (Jira.mkPosn 0 "a" ":"))
                                (Some (Jira.mkPosn 0 "b" ":"))).
    + vm_compute; discriminate.
    + right. vm_compute. reflexivity.
Defined.

(** ** Lengths *)

Lemma len_app (a b : string) : len (a ++ b) = (len a + len b)%nat.
Proof.
  unfold len.
  induction a as [|c a IH]; simpl; [reflexivity|].
  now rewrite IH.
Qed.

(** The bytes that [mids] returns are symbols of the alphabet, which all
    lie below 128. *)
Lemma mem_char_all (f : ascii -> bool) (c : ascii) (s : string) :
  mem_char c s = true -> all_chars f s = true -> f c = true.
Proof.
  induction s as [|d s IH]; simpl; [discriminate|].
  intros Hm Ha. apply andb_true_iff in Ha. destruct Ha as [Hd Ha].
  apply orb_true_iff in Hm. destruct Hm as [Hm|Hm].
  - apply Ascii.eqb_eq in Hm. now subst.
  - now apply IH.
Qed.

Lemma get_mem_char (s : string) :
  forall (j : nat) (c : ascii), String.get j s = Some c -> mem_char c s = true.
Proof.
  induction s as [|d s IH]; intros j c H; simpl in *; [discriminate|].
  destruct j as [|j].
  - injection H as ->. now rewrite Ascii.eqb_refl.
  - rewrite (IH j c H). apply orb_true_r.
Qed.

Lemma index_symbol (k : Z) (c : ascii) :
  index orderToByte k = Ok c -> is_symbol c = true.
Proof.
  unfold index, is_symbol.
  destruct (_ || _); [discriminate|].
  destruct (String.get _ _) eqn:E; [|discriminate].
  intros H. injection H as ->. eapply get_mem_char, E.
Qed.

Lemma symbol_ascii (c : ascii) : is_symbol c = true -> byte_of c < 128.
Proof.
  intros H.
  apply (mem_char_all (fun d => byte_of d <? 128)) in H; [|reflexivity].
  tests. exact H.
Qed.

Lemma len_symbol (c : ascii) :
  is_symbol c = true -> len (string_of_byte c) = 1%nat.
Proof.
  intros H. rewrite string_of_byte_ascii by now apply symbol_ascii.
  reflexivity.
Qed.

(** A slice of the trailer is a run of at most 8 copies of "U". *)
Lemma slice_trailer (h : Z) (tr : string) :
  slice_to Jira.trailer h = Ok tr ->
  0 <= h <= 8 /\ tr = rep "U" (Z.to_nat h).
Proof.
  unfold slice_to.
  destruct ((h <? 0) || (Z.of_nat (len Jira.trailer) <? h)) eqn:E;
    [discriminate|].
  intros H. injection H as <-.
  tests. change (Z.of_nat (len Jira.trailer)) with 8 in *.
  split; [lia|].
  assert (h = 0 \/ h = 1 \/ h = 2 \/ h = 3 \/ h = 4 \/ h = 5 \/ h = 6
          \/ h = 7 \/ h = 8) as Hh by lia.
  repeat (destruct Hh as [-> | Hh]; [reflexivity|]).
  now subst.
Qed.

Lemma slice_trailer_long (h : Z) :
  8 < h -> slice_to Jira.trailer h = Panic SliceOutOfRange.
Proof.
  intros H. unfold slice_to.
  change (Z.of_nat (len Jira.trailer)) with 8.
  destruct (h <? 0) eqn:E1; [reflexivity|].
  destruct (8 <? h) eqn:E2; [reflexivity|].
  tests. lia.
Qed.

(** ** What [mids] returns *)

Lemma fill_length (prevo per : Z) (cnt : nat) :
  forall (j : nat) (l : list ascii),
    fill prevo per j cnt = Ok l -> List.length l = cnt.
Proof.
  induction cnt as [|cnt IH]; intros j l H; simpl in H.
  - now injection H as <-.
  - destruct (index orderToByte _); try discriminate.
    simpl in H.
    destruct (fill prevo per (S j) cnt) eqn:E; try discriminate.
    simpl in H. injection H as <-.
    simpl. f_equal. now apply (IH (S j)).
Qed.

Lemma fill_symbols (prevo per : Z) (cnt : nat) :
  forall (j : nat) (l : list ascii),
    fill prevo per j cnt = Ok l -> Forall (fun c => is_symbol c = true) l.
Proof.
  induction cnt as [|cnt IH]; intros j l H; simpl in H.
  - injection H as <-. constructor.
  - destruct (index orderToByte _) eqn:Ei; try discriminate.
    simpl in H.
    destruct (fill prevo per (S j) cnt) eqn:E; try discriminate.
    simpl in H. injection H as <-.
    constructor; [now apply index_symbol in Ei|now apply (IH (S j))].
Qed.

(** A successful [mids] has a spacing of at least 1, a batch size that is
    not negative, and returns exactly [n] symbols. *)
Lemma mids_some (n : Z) (a b : ascii) (ch : list ascii) :
  Jira.mids n a b = Ok (Some ch) ->
  0 <= n
  /\ 1 <= Z.quot (wrap8 (Jira._byteToOrder b - Jira._byteToOrder a)) (n + 1)
  /\ Z.of_nat (List.length ch) = n
  /\ Forall (fun c => is_symbol c = true) ch.
Proof.
  unfold Jira.mids. rewrite !byteToOrder_ok. cbn [bind].
  destruct (n + 1 =? 0) eqn:E0; [discriminate|].
  set (d := wrap8 (Jira._byteToOrder b - Jira._byteToOrder a)).
  destruct (Z.quot d (n + 1) <? 1) eqn:E1; [discriminate|].
  destruct (fill _ _ 0 (Z.to_nat n)) eqn:E2; try discriminate.
  cbn [bind]. intros H. injection H as <-.
  tests.
  assert (0 <= d) as Hd by (unfold d, wrap8; apply Z.mod_pos_bound; lia).
  assert (0 <= n) as Hn.
  { destruct (Z_lt_le_dec (n + 1) 0) as [Hneg|Hpos]; [|lia].
    exfalso.
    assert (0 <= Z.quot d (- (n + 1))) by (apply Z.quot_pos; lia).
    rewrite Z.quot_opp_r in H by lia. lia. }
  pose proof (fill_symbols _ _ _ _ _ E2) as Hsym.
  apply fill_length in E2.
  repeat split; try lia; exact Hsym.
Qed.

(** ** The loop of [majorRanks], pass by pass *)

Lemma loop_passes (k : nat) :
  forall (fuel : nat) (n bucket majorLen : Z) (st st' : Jira.loop_state),
    passes k n bucket majorLen st = Some st' ->
    Jira.majorRanks_loop (k + fuel) n bucket majorLen st
    = Jira.majorRanks_loop fuel n bucket majorLen st'.
Proof.
  induction k as [|k IH]; intros fuel n bucket majorLen st st' H; simpl in H.
  - now injection H as <-.
  - cbn [Nat.add Jira.majorRanks_loop].
    destruct (Jira.majorRanks_body n bucket majorLen st) as [[st1|r]|p|];
      try discriminate.
    cbn [bind]. now apply IH.
Qed.

(** A run that returns does so from a state reached by passes that all
    ended in [continue]. *)
Lemma loop_returns (fuel : nat) :
  forall (n bucket majorLen : Z) (st : Jira.loop_state)
         (r : option (list Jira.Posn)),
    Jira.majorRanks_loop fuel n bucket majorLen st = Ok r ->
    exists (k : nat) (st' : Jira.loop_state),
      (k < fuel)%nat
      /\ passes k n bucket majorLen st = Some st'
      /\ Jira.majorRanks_body n bucket majorLen st' = Ok (Jira.Return r).
Proof.
  induction fuel as [|fuel IH]; intros n bucket majorLen st r H;
    [discriminate|].
  cbn [Jira.majorRanks_loop] in H.
  destruct (Jira.majorRanks_body n bucket majorLen st) as [[st1|r1]|p|] eqn:E;
    try discriminate; cbn [bind] in H.
  - destruct (IH _ _ _ _ _ H) as (k & st' & Hk & Hp & Hb).
    exists (S k), st'. repeat split; [lia| |exact Hb].
    simpl. now rewrite E.
  - injection H as <-. exists 0%nat, st. repeat split; [lia|exact E].
Qed.

(** The shape of a successful return of the loop body. *)
Lemma body_returns_some (n bucket majorLen : Z) (st : Jira.loop_state)
      (out : list Jira.Posn) :
  Jira.majorRanks_body n bucket majorLen st = Ok (Jira.Return (Some out)) ->
  exists (midChars : list ascii) (pad : nat),
    Jira.mids n (getChar (Jira.prevMajor st) (Jira.i st) minChar)
                (getChar (Jira.nextMajor st) (Jira.i st) maxChar)
    = Ok (Some midChars)
    /\ Z.of_nat pad = majorLen - 1 - Z.of_nat (len (Jira.rank st))
    /\ (pad <= 8)%nat
    /\ out = map (fun mid =>
                    Jira.mkPosn bucket
                      (Jira.rank st ++ string_of_byte mid ++ rep "U" pad) ":")
                 midChars.
Proof.
  unfold Jira.majorRanks_body.
  destruct (Ascii.eqb _ _); [discriminate|].
  destruct (Jira.mids n _ _) as [[midChars|]|p|]; cbn [bind];
    try discriminate.
  - destruct (Z.of_nat (len (Jira.rank st)) =? majorLen); [discriminate|].
    destruct (slice_to Jira.trailer _) as [tr|p|] eqn:Etr; cbn [bind];
      try discriminate.
    intros H. injection H as <-.
    apply slice_trailer in Etr. destruct Etr as [Hh ->].
    exists midChars, (Z.to_nat (majorLen - 1 - Z.of_nat (len (Jira.rank st)))).
    repeat split; [lia|lia].
  - rewrite !byteToOrder_ok. cbn [bind].
    destruct (_ >? _); destruct (slice_to _ _); cbn [bind]; discriminate.
Qed.

(** A successful call of [Ranks] is a successful call of [majorRanks] on
    bounds with different majors. *)
Lemma Ranks_some (fuel : nat) (n : Z) (prev next : option Jira.Posn)
      (out : list Jira.Posn) :
  Jira.Ranks fuel n prev next = Ok (Some out) ->
  n <= MaxMultiRank
  /\ Jira.Major (Jira.lower_bound prev next)
     <> Jira.Major (Jira.upper_bound prev next)
  /\ Jira.majorRanks fuel n (Jira.lower_bound prev next)
                            (Jira.upper_bound prev next) = Ok (Some out).
Proof.
  unfold Jira.Ranks.
  destruct (n >? MaxMultiRank) eqn:E; [discriminate|].
  destruct (String.eqb _ _) eqn:Eq; cbn [negb]; [discriminate|].
  destruct (Jira.majorRanks _ _ _ _) as [[o|]|p|]; cbn [bind];
    try discriminate.
  intros H. injection H as <-.
  apply String.eqb_neq in Eq. tests.
  repeat split; [lia|exact Eq].
Qed.

(** ** The length of the generated majors *)

(** C5 as the claim states it fails: with majors "0" and "z" the generated
    major "U" has length 1, not max(1, 1) - 1 = 0. *)
Lemma C5_length_is_not_max_minus_one :
  ~ (forall (fuel : nat) (n : Z) (prev next : option Jira.Posn)
            (out : list Jira.Posn),
        Jira.Ranks fuel n prev next = Ok (Some out) ->
        forall p : Jira.Posn,
          In p out ->
          Z.of_nat (len (Jira.Major p))
          = Jira.max (Z.of_nat (len (Jira.Major (Jira.lower_bound prev next))))
                     (Z.of_nat (len (Jira.Major (Jira.upper_bound prev next))))
            - 1).
Proof.
  intros H.
  specialize (H 1%nat 1 (Some (Jira.mkPosn 0 "0" ":"))
                (Some (Jira.mkPosn 0 "z" ":")) [Jira.mkPosn 0 "U" ":"]
                eq_refl (Jira.mkPosn 0 "U" ":") (or_introl eq_refl)).
  vm_compute in H. discriminate.
Qed.

(** C5, amended.  On every successful generation the loop has reached, by
    passes that all went round again, a state whose accumulated prefix
    [rank] starts every returned major: each major is that prefix, then one
    of the symbols of [mids], then a run of at most 8 copies of the filler
    "U", and its length is max(len(lowerMajor), len(upperMajor)).  There are
    [n] of them, all of that one length. *)
Theorem C5_majors_have_max_length :
  forall (fuel : nat) (n : Z) (prev next : option Jira.Posn)
         (out : list Jira.Posn),
    Jira.Ranks fuel n prev next = Ok (Some out) ->
    let lower := Jira.lower_bound prev next in
    let upper := Jira.upper_bound prev next in
    let majorLen := Jira.max (Z.of_nat (len (Jira.Major lower)))
                             (Z.of_nat (len (Jira.Major upper))) in
    exists (k : nat) (st : Jira.loop_state) (midChars : list ascii)
           (pad : nat),
      passes k n (Jira.Bucket lower) majorLen (init_state lower upper)
      = Some st
      /\ Jira.mids n (getChar (Jira.prevMajor st) (Jira.i st) minChar)
                     (getChar (Jira.nextMajor st) (Jira.i st) maxChar)
         = Ok (Some midChars)
      /\ (pad <= 8)%nat
      /\ out = map (fun mid =>
                      Jira.mkPosn (Jira.Bucket lower)
                        (Jira.rank st ++ string_of_byte mid ++ rep "U" pad) ":")
                   midChars
      /\ Z.of_nat (List.length out) = n
      /\ (forall p : Jira.Posn,
             In p out -> Z.of_nat (len (Jira.Major p)) = majorLen).
Proof.
  intros fuel n prev next out H lower upper majorLen.
  apply Ranks_some in H. destruct H as (_ & _ & H).
  unfold Jira.majorRanks in H.
  apply loop_returns in H. destruct H as (k & st & _ & Hp & Hb).
  apply body_returns_some in Hb.
  destruct Hb as (midChars & pad & Hm & Hpad & Hle & ->).
  exists k, st, midChars, pad.
  repeat split; try assumption.
  - rewrite length_map. now apply mids_some in Hm.
  - intros p Hin. apply in_map_iff in Hin. destruct Hin as (mid & <- & Hmid).
    cbn [Jira.Major].
    apply mids_some in Hm. destruct Hm as (_ & _ & _ & Hsym).
    rewrite Forall_forall in Hsym.
    rewrite !len_app, (len_symbol mid (Hsym mid Hmid)), len_rep.
    fold lower upper majorLen in Hpad. lia.
Qed.

Lemma C5_majors_have_max_length_witness :
  exists (k : nat) (st : Jira.loop_state) (midChars : list ascii) (pad : nat),
    passes k 1 0 4 (Jira.mkState "005z" "006b" "" 0) = Some st
    /\ Jira.mids 1 (getChar (Jira.prevMajor st) (Jira.i st) minChar)
                   (getChar (Jira.nextMajor st) (Jira.i st) maxChar)
       = Ok (Some midChars)
    /\ (pad <= 8)%nat
    /\ [Jira.mkPosn 0 "006I" ":"]
       = map (fun mid =>
                Jira.mkPosn 0 (Jira.rank st ++ string_of_byte mid ++ rep "U" pad) ":")
             midChars
    /\ Z.of_nat (List.length [Jira.mkPosn 0 "006I" ":"]) = 1
    /\ (forall p : Jira.Posn,
           In p [Jira.mkPosn 0 "006I" ":"] ->
           Z.of_nat (len (Jira.Major p)) = 4).
Proof.
  apply (C5_majors_have_max_length
           5 1 (Some (Jira.mkPosn 0 "005z" ":")) (Some (Jira.mkPosn 0 "006b" ":"))
           [Jira.mkPosn 0 "006I" ":"]).
  vm_compute. reflexivity.
Defined.

(** ** Aborts in the trailer slice *)

(** [mids] finds no room between a byte and itself. *)
Lemma mids_some_differ (n : Z) (a b : ascii) (ch : list ascii) :
  Jira.mids n a b = Ok (Some ch) -> Ascii.eqb a b = false.
Proof.
  intros H. apply mids_some in H. destruct H as (_ & H & _ & _).
  destruct (Ascii.eqb a b) eqn:E; [|reflexivity].
  apply Ascii.eqb_eq in E. subst b.
  rewrite Z.sub_diag in H. change (wrap8 0) with 0 in H.
  rewrite Z.quot_0_l in H; [lia|].
  intros Hz. rewrite Hz in H. now vm_compute in H.
Qed.

(** C10. Whenever the loop of [majorRanks] reaches, after [k] passes, a
    state in which [mids] finds room while
    max(len(lowerMajor), len(upperMajor)) - 1 - len(rank) exceeds 8, the
    slice of the 8-byte trailer aborts: [Ranks] returns neither ranks nor a
    failure flag. *)
Theorem C10_trailer_slice_aborts :
  forall (k fuel : nat) (n : Z) (prev next : option Jira.Posn)
         (st : Jira.loop_state) (midChars : list ascii),
    let lower := Jira.lower_bound prev next in
    let upper := Jira.upper_bound prev next in
    let majorLen := Jira.max (Z.of_nat (len (Jira.Major lower)))
                             (Z.of_nat (len (Jira.Major upper))) in
    n <= MaxMultiRank ->
    Jira.Major lower <> Jira.Major upper ->
    passes k n (Jira.Bucket lower) majorLen (init_state lower upper)
    = Some st ->
    Jira.mids n (getChar (Jira.prevMajor st) (Jira.i st) minChar)
                (getChar (Jira.nextMajor st) (Jira.i st) maxChar)
    = Ok (Some midChars) ->
    majorLen - 1 - Z.of_nat (len (Jira.rank st)) > 8 ->
    Jira.majorRanks (k + S fuel) n lower upper = Panic SliceOutOfRange
    /\ Jira.Ranks (k + S fuel) n prev next = Panic SliceOutOfRange.
Proof.
  intros k fuel n prev next st midChars lower upper majorLen
         Hn Hne Hp Hm Hgap.
  assert (Jira.majorRanks (k + S fuel) n lower upper = Panic SliceOutOfRange)
    as Hmajor.
  { unfold Jira.majorRanks. fold majorLen.
    change (Jira.mkState (Jira.Major lower) (Jira.Major upper) "" 0)
      with (init_state lower upper).
    rewrite (loop_passes k (S fuel) _ _ _ _ _ Hp).
    cbn [Jira.majorRanks_loop].
    unfold Jira.majorRanks_body.
    rewrite (mids_some_differ _ _ _ _ Hm), Hm. cbn [bind].
    destruct (Z.of_nat (len (Jira.rank st)) =? majorLen) eqn:E;
      [tests; lia|].
    rewrite slice_trailer_long by lia. reflexivity. }
  split; [exact Hmajor|].
  unfold Jira.Ranks.
  destruct (n >? MaxMultiRank) eqn:E; [tests; lia|].
  fold lower upper.
  apply String.eqb_neq in Hne. rewrite Hne. cbn [negb].
  rewrite Hmajor. reflexivity.
Qed.

Lemma C10_trailer_slice_aborts_witness :
  Jira.majorRanks (0 + 1) 1 (Jira.mkPosn 0 "0000000000" ":")
                            (Jira.mkPosn 0 "zzzzzzzzzz" ":")
  = Panic SliceOutOfRange
  /\ Jira.Ranks (0 + 1) 1 (Some (Jira.mkPosn 0 "0000000000" ":"))
                          (Some (Jira.mkPosn 0 "zzzzzzzzzz" ":"))
     = Panic SliceOutOfRange.
Proof.
  apply (C10_trailer_slice_aborts
           0 0 1 (Some (Jira.mkPosn 0 "0000000000" ":"))
           (Some (Jira.mkPosn 0 "zzzzzzzzzz" ":"))
           (Jira.mkState "0000000000" "zzzzzzzzzz" "" 0) ["U"%char]).
  - vm_compute; discriminate.
  - vm_compute; discriminate.
  - reflexivity.
  - vm_compute; reflexivity.
  - vm_compute; reflexivity.
Defined.

(** ** The fork in the road *)

Lemma spaceAfterPrev_eq (st : Jira.loop_state) :
  spaceAfterPrev st
  = 61 - Jira._byteToOrder (getChar (Jira.prevMajor st) (Jira.i st + 1) minChar).
Proof.
  unfold spaceAfterPrev, wrap8.
  pose proof (order_range (getChar (Jira.prevMajor st) (Jira.i st + 1) minChar)).
  change MaxMultiRank with 61.
  apply Z.mod_small. lia.
Qed.

(** C7 as the claim states it fails.  For the majors "005z" and "006b" at
    index 2 the upper bound has the larger capacity (37 against 0), but its
    major is left as it is: the lower major is the one rewritten. *)
Lemma C7_larger_capacity_is_not_rewritten :
  ~ (forall (n bucket majorLen : Z) (st st' : Jira.loop_state),
        let prevChar := getChar (Jira.prevMajor st) (Jira.i st) minChar in
        let nextChar := getChar (Jira.nextMajor st) (Jira.i st) maxChar in
        Jira.mids n prevChar nextChar = Ok None ->
        Jira.majorRanks_body n bucket majorLen st = Ok (Jira.Continue st') ->
        (spaceAfterPrev st > spaceBeforeNext st ->
         Jira.prevMajor st'
         = String.substring 0 (Jira.i st) (Jira.prevMajor st) ++ string_of_byte nextChar)
        /\ (spaceBeforeNext st > spaceAfterPrev st ->
            Jira.nextMajor st'
            = String.substring 0 (Jira.i st) (Jira.nextMajor st)
              ++ string_of_byte prevChar)).
Proof.
  intros H.
  specialize (H 1 0 4 (Jira.mkState "005z" "006b" "00" 2)
                (Jira.mkState "006" "006b" "006" 3) eq_refl eq_refl).
  destruct H as [_ H].
  assert (spaceBeforeNext (Jira.mkState "005z" "006b" "00" 2)
          > spaceAfterPrev (Jira.mkState "005z" "006b" "00" 2)) as Hgt
      by reflexivity.
  specialize (H Hgt). vm_compute in H. discriminate.
Qed.

(** The scenario of the majors "005z" and "006b": after the common "00" no
    batch of 1 or more fits between "5" and "6", the lower major is
    rewritten to "006", and a batch of up to 36 fits between the default
    "0" and "b". *)
Lemma scenario_005z_006b (fuel : nat) (n b1 b2 : Z) (m1 m2 : string) :
  1 <= n <= 36 ->
  exists ch : list ascii,
    Z.of_nat (List.length ch) = n
    /\ Jira.Ranks (4 + fuel) n (Some (Jira.mkPosn b1 "005z" m1))
                               (Some (Jira.mkPosn b2 "006b" m2))
       = Ok (Some (map (fun mid =>
                          Jira.mkPosn b1
                            (String "0" (String "0" (String "6"
                               (String mid "")))) ":") ch)).
Proof.
  intros Hn.
  assert (forallb (fun k =>
                     match Jira.mids (Z.of_nat k) "5" "6",
                           Jira.mids (Z.of_nat k) "0" "b" with
                     | Ok None, Ok (Some _) => true
                     | _, _ => false
                     end) (seq 1 36) = true) as Hall
      by (vm_compute; reflexivity).
  rewrite forallb_forall in Hall.
  specialize (Hall (Z.to_nat n) ltac:(apply in_seq; lia)).
  rewrite Z2Nat.id in Hall by lia.
  destruct (Jira.mids n "5" "6") as [[|]| |] eqn:Hnone; try discriminate.
  destruct (Jira.mids n "0" "b") as [[ch|]| |] eqn:Hsome; try discriminate.
  clear Hall.
  pose proof (mids_some _ _ _ _ Hsome) as (_ & _ & Hlen & Hsym).
  rewrite Forall_forall in Hsym.
  exists ch. split; [exact Hlen|].
  unfold Jira.Ranks.
  destruct (n >? MaxMultiRank) eqn:E;
    [tests; change MaxMultiRank with 61 in E; lia|].
  cbn [Jira.lower_bound Jira.upper_bound Jira.Major].
  change (negb ("005z" =? "006b")%string) with true. cbv iota.
  unfold Jira.majorRanks. cbn [Jira.Major Jira.Bucket].
  change (Jira.max (Z.of_nat (len "005z")) (Z.of_nat (len "006b"))) with 4.
  cbn [Nat.add Jira.majorRanks_loop].
  (* two passes over the common prefix *)
  change (Jira.majorRanks_body n b1 4 (Jira.mkState "005z" "006b" "" 0))
    with (Ok (Jira.Continue (Jira.mkState "005z" "006b" "0" 1))).
  cbn [bind Jira.majorRanks_loop].
  change (Jira.majorRanks_body n b1 4 (Jira.mkState "005z" "006b" "0" 1))
    with (Ok (Jira.Continue (Jira.mkState "005z" "006b" "00" 2))).
  cbn [bind Jira.majorRanks_loop].
  (* the fork between "5" and "6" *)
  assert (Jira.majorRanks_body n b1 4 (Jira.mkState "005z" "006b" "00" 2)
          = Ok (Jira.Continue (Jira.mkState "006" "006b" "006" 3))) as ->.
  { unfold Jira.majorRanks_body.
    cbn [Jira.prevMajor Jira.nextMajor Jira.rank Jira.i].
    change (getChar "005z" 2 minChar) with "5"%char.
    change (getChar "006b" 2 maxChar) with "6"%char.
    rewrite Hnone. reflexivity. }
  cbn [bind Jira.majorRanks_loop].
  (* room between the default "0" and "b" *)
  assert (Jira.majorRanks_body n b1 4 (Jira.mkState "006" "006b" "006" 3)
          = Ok (Jira.Return
                  (Some (map (fun mid =>
                                Jira.mkPosn b1
                                  ("006" ++ string_of_byte mid ++ "") ":")
                             ch)))) as ->.
  { unfold Jira.majorRanks_body.
    cbn [Jira.prevMajor Jira.nextMajor Jira.rank Jira.i].
    change (getChar "006" 3 minChar) with "0"%char.
    change (getChar "006b" 3 maxChar) with "b"%char.
    rewrite Hsome. reflexivity. }
  cbn [bind]. do 2 f_equal.
  apply map_ext_in. intros mid Hin.
  rewrite string_of_byte_ascii by (apply symbol_ascii, Hsym, Hin).
  reflexivity.
Qed.

(** C7, amended.  At a divergence index [i] where [mids] finds no room, the
    capacities are 61 - order(lower major's byte at i + 1) and
    order(upper major's byte at i + 1), each padded at the boundary.  When
    the lower bound has strictly more capacity it is kept, and the upper
    major is rewritten to its first [i] bytes followed by the lower bound's
    byte at [i].  Otherwise the upper bound is kept and the lower major is
    rewritten to its first [i] bytes followed by the upper bound's byte at
    [i]; when the lower major has fewer than [i] bytes that slice aborts.
    After a rewrite the byte chosen is appended to [rank] and the scan goes
    on at [i + 1].  For the majors "005z" and "006b" and a batch of 1 to 36,
    generation succeeds, and every major generated is "006" followed by one
    symbol, so starts with "00". *)
Theorem C7_smaller_capacity_is_rewritten :
  forall (n bucket majorLen : Z) (st : Jira.loop_state),
    let prevChar := getChar (Jira.prevMajor st) (Jira.i st) minChar in
    let nextChar := getChar (Jira.nextMajor st) (Jira.i st) maxChar in
    Ascii.eqb prevChar nextChar = false ->
    Jira.mids n prevChar nextChar = Ok None ->
    spaceAfterPrev st
    = 61 - Jira._byteToOrder
             (getChar (Jira.prevMajor st) (Jira.i st + 1) minChar)
    /\ spaceBeforeNext st
       = Jira._byteToOrder
           (getChar (Jira.nextMajor st) (Jira.i st + 1) maxChar)
    /\ (spaceAfterPrev st > spaceBeforeNext st ->
        Jira.majorRanks_body n bucket majorLen st
        = Ok (Jira.Continue
                {| Jira.prevMajor := Jira.prevMajor st;
                   Jira.nextMajor :=
                     String.substring 0 (Jira.i st) (Jira.nextMajor st)
                     ++ string_of_byte prevChar;
                   Jira.rank := Jira.rank st ++ string_of_byte prevChar;
                   Jira.i := S (Jira.i st) |}))
    /\ (spaceAfterPrev st <= spaceBeforeNext st ->
        (Jira.i st <= len (Jira.prevMajor st))%nat ->
        Jira.majorRanks_body n bucket majorLen st
        = Ok (Jira.Continue
                {| Jira.prevMajor :=
                     String.substring 0 (Jira.i st) (Jira.prevMajor st)
                     ++ string_of_byte nextChar;
                   Jira.nextMajor := Jira.nextMajor st;
                   Jira.rank := Jira.rank st ++ string_of_byte nextChar;
                   Jira.i := S (Jira.i st) |}))
    /\ (spaceAfterPrev st <= spaceBeforeNext st ->
        (len (Jira.prevMajor st) < Jira.i st)%nat ->
        Jira.majorRanks_body n bucket majorLen st = Panic SliceOutOfRange)
    /\ (forall (fuel : nat) (n' b1 b2 : Z) (m1 m2 : string),
           1 <= n' <= 36 ->
           exists ch : list ascii,
             Z.of_nat (List.length ch) = n'
             /\ Jira.Ranks (4 + fuel) n'
                  (Some (Jira.mkPosn b1 "005z" m1))
                  (Some (Jira.mkPosn b2 "006b" m2))
                = Ok (Some (map (fun mid =>
                                   Jira.mkPosn b1
                                     (String "0" (String "0" (String "6"
                                        (String mid "")))) ":") ch))).
Proof.
  intros n bucket majorLen st prevChar nextChar Hne Hm.
  split; [apply spaceAfterPrev_eq|].
  split; [reflexivity|].
  assert (Jira.majorRanks_body n bucket majorLen st
          = if spaceAfterPrev st >? spaceBeforeNext st then
              pre <- slice_to (Jira.nextMajor st) (Z.of_nat (Jira.i st)) ;;
              Ok (Jira.Continue
                    {| Jira.prevMajor := Jira.prevMajor st;
                       Jira.nextMajor := pre ++ string_of_byte prevChar;
                       Jira.rank := Jira.rank st ++ string_of_byte prevChar;
                       Jira.i := S (Jira.i st) |})
            else
              pre <- slice_to (Jira.prevMajor st) (Z.of_nat (Jira.i st)) ;;
              Ok (Jira.Continue
                    {| Jira.prevMajor := pre ++ string_of_byte nextChar;
                       Jira.nextMajor := Jira.nextMajor st;
                       Jira.rank := Jira.rank st ++ string_of_byte nextChar;
                       Jira.i := S (Jira.i st) |})) as Hbody.
  { unfold Jira.majorRanks_body.
    fold prevChar nextChar. rewrite Hne, Hm. cbn [bind].
    rewrite !byteToOrder_ok. reflexivity. }
  rewrite Hbody. clear Hbody.
  split; [|split; [|split]].
  - (* the upper major is long enough: its byte at i + 1 is not the default *)
    intros Hgt.
    destruct (spaceAfterPrev st >? spaceBeforeNext st) eqn:E; [|tests; lia].
    assert (Jira.i st <= len (Jira.nextMajor st))%nat as Hnext.
    { destruct (le_lt_dec (Jira.i st) (len (Jira.nextMajor st))) as [Hle|Hlt];
        [exact Hle|].
      exfalso.
      rewrite spaceAfterPrev_eq in Hgt. unfold spaceBeforeNext in Hgt.
      rewrite (getChar_default (Jira.nextMajor st)) in Hgt by lia.
      pose proof (order_range
                    (getChar (Jira.prevMajor st) (Jira.i st + 1) minChar)).
      change (Jira._byteToOrder maxChar) with 61 in Hgt. lia. }
    unfold slice_to.
    destruct (Z.of_nat (Jira.i st) <? 0) eqn:E1; [tests; lia|].
    destruct (Z.of_nat (len (Jira.nextMajor st)) <? Z.of_nat (Jira.i st))
      eqn:E2; [tests; lia|].
    cbn [orb bind]. rewrite Nat2Z.id. reflexivity.
  - intros Hle Hlen.
    destruct (spaceAfterPrev st >? spaceBeforeNext st) eqn:E; [tests; lia|].
    unfold slice_to.
    destruct (Z.of_nat (Jira.i st) <? 0) eqn:E1; [tests; lia|].
    destruct (Z.of_nat (len (Jira.prevMajor st)) <? Z.of_nat (Jira.i st))
      eqn:E2; [tests; lia|].
    cbn [orb bind]. rewrite Nat2Z.id. reflexivity.
  - intros Hle Hlen.
    destruct (spaceAfterPrev st >? spaceBeforeNext st) eqn:E; [tests; lia|].
    unfold slice_to.
    destruct (Z.of_nat (Jira.i st) <? 0) eqn:E1; [reflexivity|].
    destruct (Z.of_nat (len (Jira.prevMajor st)) <? Z.of_nat (Jira.i st))
      eqn:E2; [reflexivity|tests; lia].
  - intros fuel n' b1 b2 m1 m2 Hn'. now apply scenario_005z_006b.
Qed.

Lemma C7_smaller_capacity_is_rewritten_witness :
  Jira.majorRanks_body 1 0 4 (Jira.mkState "005z" "006b" "00" 2)
  = Ok (Jira.Continue (Jira.mkState "006" "006b" "006" 3))
  /\ Jira.majorRanks_body 1 0 4 (Jira.mkState "a" "a01x" "a0" 2)
     = Ok (Jira.Continue (Jira.mkState "a" "a00" "a00" 3))
  /\ Jira.majorRanks_body 1 0 3 (Jira.mkState "a" "a01" "a0" 2)
     = Panic SliceOutOfRange.
Proof.
  split; [|split].
  - apply (C7_smaller_capacity_is_rewritten
             1 0 4 (Jira.mkState "005z" "006b" "00" 2) eq_refl eq_refl).
    + apply Z.leb_le. reflexivity.
    + vm_compute. lia.
  - apply (C7_smaller_capacity_is_rewritten
             1 0 4 (Jira.mkState "a" "a01x" "a0" 2) eq_refl eq_refl).
    reflexivity.
  - apply (C7_smaller_capacity_is_rewritten
             1 0 3 (Jira.mkState "a" "a01" "a0" 2) eq_refl eq_refl).
    + apply Z.leb_le. reflexivity.
    + vm_compute. lia.
Defined.

(** ** The text format *)

Lemma app_empty_r (s : string) : s ++ "" = s.
Proof.
  induction s as [|c s IH]; simpl; [reflexivity|].
  now rewrite IH.
Qed.

(** A run of 0-9 and a-z is split off whole when what follows it does not
    start with such a byte. *)
Lemma span_09az_app (m r : string) :
  all_chars Jira.is_09az m = true ->
  (r = "" \/ exists c r', r = String c r' /\ Jira.is_09az c = false) ->
  Jira.span_09az (m ++ r) = (m, r).
Proof.
  intros Hm Hr.
  induction m as [|c m IH]; simpl in *.
  - destruct Hr as [-> | (c & r' & -> & Hc)]; simpl; [reflexivity|].
    now rewrite Hc.
  - apply andb_true_iff in Hm. destruct Hm as [Hc Hm].
    rewrite Hc, (IH Hm). reflexivity.
Qed.

(** C6 as the claim states it fails: "A" is one of the 62 symbols, but the
    text "0|A" of the position (0, "A", "") is not parsed. *)
Lemma C6_uppercase_major_not_parsed :
  ~ (forall p : Jira.Posn,
        (Jira.Bucket p = 0 \/ Jira.Bucket p = 1 \/ Jira.Bucket p = 2) ->
        Jira.Major p <> "" ->
        all_chars is_symbol (Jira.Major p) = true ->
        (Jira.Minor p = ""
         \/ exists m, Jira.Minor p = String ":" m
                      /\ all_chars is_symbol m = true) ->
        Jira.ParseJira (Jira.Posn_String p) = (p, true)).
Proof.
  intros H.
  specialize (H (Jira.mkPosn 0 "A" "")).
  assert (Jira.ParseJira (Jira.Posn_String (Jira.mkPosn 0 "A" ""))
          = (Jira.Posn_zero, false)) as Hparse by reflexivity.
  rewrite H in Hparse.
  - discriminate.
  - left. reflexivity.
  - discriminate.
  - reflexivity.
  - left. reflexivity.
Qed.

(** C6, amended.  For every position whose bucket is 0, 1 or 2, whose major
    is one or more bytes of 0-9 and a-z, and whose minor is empty or a colon
    followed by bytes of 0-9 and a-z, parsing the formatted text succeeds
    and returns the position unchanged. *)
Theorem C6_round_trip_base36 :
  forall p : Jira.Posn,
    (Jira.Bucket p = 0 \/ Jira.Bucket p = 1 \/ Jira.Bucket p = 2) ->
    Jira.Major p <> "" ->
    all_chars Jira.is_09az (Jira.Major p) = true ->
    (Jira.Minor p = ""
     \/ exists m, Jira.Minor p = String ":" m
                  /\ all_chars Jira.is_09az m = true) ->
    Jira.ParseJira (Jira.Posn_String p) = (p, true).
Proof.
  intros [b ma mi]. cbn [Jira.Bucket Jira.Major Jira.Minor].
  intros Hb Hne Hma Hmi.
  assert (Jira.span_09az (ma ++ mi) = (ma, mi)) as Hspan.
  { apply span_09az_app; [exact Hma|].
    destruct Hmi as [-> | (m & -> & _)]; [now left|].
    right. exists ":"%char, m. split; reflexivity. }
  assert (String.eqb ma "" = false) as Hnonempty
      by now apply String.eqb_neq.
  assert (forall d : ascii,
             Jira.is_012 d = true ->
             Jira.ParseJira (String d (String "|" (ma ++ mi)))
             = (Jira.mkPosn (wrap8 (byte_of d - byte_of "0")) ma mi, true))
    as Hparse.
  { intros d Hd.
    unfold Jira.ParseJira, Jira.jiraRank_FindStringSubmatch.
    rewrite Hd. cbn [Ascii.eqb andb].
    change (Ascii.eqb "|" "|") with true. cbn [andb].
    rewrite Hspan, Hnonempty.
    destruct Hmi as [-> | (m & -> & Hm)]; [reflexivity|].
    change (Ascii.eqb ":" ":") with true. cbv iota.
    pose proof (span_09az_app m "" Hm (or_introl eq_refl)) as Hs.
    rewrite app_empty_r in Hs. rewrite Hs.
    reflexivity. }
  unfold Jira.Posn_String. cbn [Jira.Bucket Jira.Major Jira.Minor].
  destruct Hb as [-> | [-> | ->]].
  - apply (Hparse "0"%char). reflexivity.
  - apply (Hparse "1"%char). reflexivity.
  - apply (Hparse "2"%char). reflexivity.
Qed.

Lemma C6_round_trip_base36_witness :
  Jira.ParseJira (Jira.Posn_String (Jira.mkPosn 1 "0i0z" ":a9"))
  = (Jira.mkPosn 1 "0i0z" ":a9", true).
Proof.
  apply (C6_round_trip_base36 (Jira.mkPosn 1 "0i0z" ":a9")).
  - right. left. reflexivity.
  - discriminate.
  - reflexivity.
  - right. exists "a9". split; reflexivity.
Defined.

(** ** Batches of up to 60 come to an end *)

(** Between the two default bytes there is room for any batch of 0 to 60. *)
Lemma mids_defaults_room (n : Z) :
  0 <= n <= 60 -> exists ch, Simple.mids n minChar maxChar = Ok (Some ch).
Proof.
  intros Hn.
  assert (forallb (fun k => match Simple.mids (Z.of_nat k) minChar maxChar with
                            | Ok (Some _) => true
                            | _ => false
                            end) (seq 0 61) = true) as Hall
      by (vm_compute; reflexivity).
  rewrite forallb_forall in Hall.
  specialize (Hall (Z.to_nat n)).
  rewrite Z2Nat.id in Hall by lia.
  destruct (Simple.mids n minChar maxChar) as [[ch|]|p|].
  - now exists ch.
  - discriminate Hall. apply in_seq. lia.
  - discriminate Hall. apply in_seq. lia.
  - discriminate Hall. apply in_seq. lia.
Qed.

Lemma fill_runs (prevo per : Z) (cnt : nat) :
  forall j : nat, fill prevo per j cnt <> OutOfFuel.
Proof.
  induction cnt as [|cnt IH]; intros j; simpl; [discriminate|].
  unfold index.
  destruct (_ || _); [discriminate|].
  destruct (String.get _ _); [|discriminate].
  cbn [bind]. specialize (IH (S j)).
  destruct (fill prevo per (S j) cnt); cbn [bind]; congruence.
Qed.

Lemma mids_runs (n : Z) (a b : ascii) : Simple.mids n a b <> OutOfFuel.
Proof.
  unfold Simple.mids.
  destruct (n + 1 =? 0); [discriminate|].
  destruct (_ <? 1); [discriminate|].
  pose proof (fill_runs (Simple.byteToOrder a)
                (Z.quot (wrap8 (Simple.byteToOrder b - Simple.byteToOrder a))
                        (n + 1)) (Z.to_nat n) 0) as H.
  destruct (fill _ _ 0 (Z.to_nat n)); cbn [bind]; congruence.
Qed.

(** The plain-string loop: past the end of both bounds the defaults give
    room, so a pass that goes round again is at an index below the longer
    length. *)
Lemma simple_loop_terminates (fuel : nat) :
  forall (n : Z) (prev next rank : string) (j : nat),
    0 <= n <= 60 ->
    (j <= Nat.max (len prev) (len next))%nat ->
    (Nat.max (len prev) (len next) + 1 <= fuel + j)%nat ->
    Simple.Ranks_loop fuel n prev next rank j <> OutOfFuel.
Proof.
  induction fuel as [|fuel IH]; intros n prev next rank j Hn Hj Hfuel; [lia|].
  cbn [Simple.Ranks_loop].
  destruct (le_lt_dec (Nat.max (len prev) (len next)) j) as [Hend|Hin].
  - rewrite !getChar_default by lia.
    change (Ascii.eqb minChar maxChar) with false. cbv iota.
    destruct (mids_defaults_room n Hn) as [ch ->].
    discriminate.
  - destruct (Ascii.eqb _ _); [apply IH; lia|].
    pose proof (mids_runs n (getChar prev j minChar) (getChar next j maxChar)).
    destruct (Simple.mids n _ _) as [[ch|]|p|]; cbn [bind];
      try discriminate; try congruence.
    apply IH; lia.
Qed.

Lemma all_chars_app (f : ascii -> bool) (a b : string) :
  all_chars f (a ++ b) = all_chars f a && all_chars f b.
Proof.
  induction a as [|c a IH]; simpl; [reflexivity|].
  now rewrite IH, andb_assoc.
Qed.

Lemma all_chars_prefix (f : ascii -> bool) (s : string) :
  forall k : nat,
    all_chars f s = true -> all_chars f (String.substring 0 k s) = true.
Proof.
  induction s as [|c s IH]; intros k H; destruct k; simpl in *;
    try reflexivity.
  apply andb_true_iff in H. destruct H as [Hc Hs].
  now rewrite Hc, IH.
Qed.

Lemma len_prefix (s : string) :
  forall k : nat, (k <= len s)%nat -> len (String.substring 0 k s) = k.
Proof.
  unfold len.
  induction s as [|c s IH]; intros k H; destruct k; simpl in *;
    try reflexivity; try lia.
  rewrite IH; lia.
Qed.

Lemma getChar_all (f : ascii -> bool) (s : string) (j : nat) (d : ascii) :
  all_chars f s = true -> f d = true -> f (getChar s j d) = true.
Proof.
  intros Hs Hd. unfold getChar.
  destruct (len s <=? j)%nat; [exact Hd|].
  destruct (String.get j s) eqn:E; [|exact Hd].
  apply get_mem_char in E. now apply (mem_char_all f a s).
Qed.

Lemma slice_to_ok (s : string) (h : Z) (pre : string) :
  slice_to s h = Ok pre ->
  0 <= h <= Z.of_nat (len s) /\ pre = String.substring 0 (Z.to_nat h) s.
Proof.
  unfold slice_to.
  destruct (h <? 0) eqn:E1; [discriminate|].
  destruct (Z.of_nat (len s) <? h) eqn:E2; [discriminate|].
  cbn [orb]. intros H. injection H as <-.
  tests. split; [lia|reflexivity].
Qed.

(** A pass that goes round again on ASCII majors no longer than [L] is at
    an index below [L] and leaves ASCII majors no longer than [L]. *)
Lemma jira_body_bounded (n bucket majorLen : Z) (L : nat)
      (st st' : Jira.loop_state) :
  0 <= n <= 60 ->
  bounded L st ->
  Jira.majorRanks_body n bucket majorLen st = Ok (Jira.Continue st') ->
  bounded L st' /\ Jira.i st' = S (Jira.i st).
Proof.
  intros Hn (Hi & Hp & Hx & Hap & Hax) H.
  assert (is_ascii (getChar (Jira.prevMajor st) (Jira.i st) minChar) = true)
    as Hpc by (apply getChar_all; [exact Hap|reflexivity]).
  assert (is_ascii (getChar (Jira.nextMajor st) (Jira.i st) maxChar) = true)
    as Hnc by (apply getChar_all; [exact Hax|reflexivity]).
  assert (Jira.i st < L)%nat as Hlt.
  { destruct (le_lt_dec L (Jira.i st)) as [Hend|Hin]; [|exact Hin].
    exfalso. revert H. unfold Jira.majorRanks_body.
    rewrite !(getChar_default _ (Jira.i st)) by lia.
    change (Ascii.eqb minChar maxChar) with false. cbv iota.
    rewrite mids_same.
    destruct (mids_defaults_room n Hn) as [ch ->]. cbn [bind].
    destruct (_ =? _); [discriminate|].
    destruct (slice_to _ _); discriminate. }
  revert H. unfold Jira.majorRanks_body.
  destruct (Ascii.eqb _ _).
  { intros H. injection H as <-.
    unfold bounded. cbn [Jira.prevMajor Jira.nextMajor Jira.i Jira.rank].
    repeat split; try assumption; lia. }
  destruct (Jira.mids n _ _) as [[ch|]|p|]; cbn [bind]; try discriminate.
  { destruct (_ =? _); [discriminate|].
    destruct (slice_to _ _); discriminate. }
  rewrite !byteToOrder_ok. cbn [bind].
  unfold is_ascii in Hpc, Hnc. tests.
  destruct (_ >? _).
  - destruct (slice_to (Jira.nextMajor st) _) as [pre|p|] eqn:Es;
      cbn [bind]; try discriminate.
    intros H. injection H as <-.
    unfold bounded. cbn [Jira.prevMajor Jira.nextMajor Jira.i Jira.rank].
    apply slice_to_ok in Es. destruct Es as [Hh ->].
    rewrite Nat2Z.id.
    rewrite string_of_byte_ascii by exact Hpc.
    repeat split; try assumption; try lia.
    + rewrite len_app, len_prefix by lia. cbn [len String.length]. lia.
    + rewrite all_chars_app, all_chars_prefix by exact Hax.
      cbn. unfold is_ascii.
      destruct (byte_of _ <? 128) eqn:E; [reflexivity|tests; lia].
  - destruct (slice_to (Jira.prevMajor st) _) as [pre|p|] eqn:Es;
      cbn [bind]; try discriminate.
    intros H. injection H as <-.
    unfold bounded. cbn [Jira.prevMajor Jira.nextMajor Jira.i Jira.rank].
    apply slice_to_ok in Es. destruct Es as [Hh ->].
    rewrite Nat2Z.id.
    rewrite string_of_byte_ascii by exact Hnc.
    repeat split; try assumption; try lia.
    + rewrite len_app, len_prefix by lia. cbn [len String.length]. lia.
    + rewrite all_chars_app, all_chars_prefix by exact Hap.
      cbn. unfold is_ascii.
      destruct (byte_of _ <? 128) eqn:E; [reflexivity|tests; lia].
Qed.

Lemma jira_body_runs (n bucket majorLen : Z) (st : Jira.loop_state) :
  Jira.majorRanks_body n bucket majorLen st <> OutOfFuel.
Proof.
  unfold Jira.majorRanks_body.
  destruct (Ascii.eqb _ _); [discriminate|].
  rewrite mids_same.
  pose proof (mids_runs n (getChar (Jira.prevMajor st) (Jira.i st) minChar)
                (getChar (Jira.nextMajor st) (Jira.i st) maxChar)) as H.
  destruct (Simple.mids n _ _) as [[ch|]|p|]; cbn [bind];
    try discriminate; try congruence.
  - destruct (_ =? _); [discriminate|].
    unfold slice_to. destruct (_ || _); discriminate.
  - rewrite !byteToOrder_ok. cbn [bind].
    unfold slice_to.
    destruct (_ >? _); destruct (_ || _); discriminate.
Qed.

Lemma jira_loop_terminates (fuel : nat) :
  forall (n bucket majorLen : Z) (L : nat) (st : Jira.loop_state),
    0 <= n <= 60 ->
    bounded L st ->
    (L + 1 <= fuel + Jira.i st)%nat ->
    Jira.majorRanks_loop fuel n bucket majorLen st <> OutOfFuel.
Proof.
  induction fuel as [|fuel IH]; intros n bucket majorLen L st Hn Hb Hfuel.
  - destruct Hb as (Hi & _). lia.
  - cbn [Jira.majorRanks_loop].
    pose proof (jira_body_runs n bucket majorLen st) as Hruns.
    destruct (Jira.majorRanks_body n bucket majorLen st) as [[st'|r]|p|] eqn:E;
      cbn [bind]; try discriminate; try congruence.
    destruct (jira_body_bounded _ _ _ _ _ _ Hn Hb E) as [Hb' Hi'].
    apply (IH _ _ _ L); [exact Hn|exact Hb'|lia].
Qed.

(** X20. For a batch of 0 to 60 and ASCII majors, [Ranks] comes to an end,
    with a result or an abort, within
    max(len(lowerMajor), len(upperMajor)) + 1 passes through the loop. *)
Lemma jira_Ranks_terminates (fuel : nat) (n : Z) (prev next : option Jira.Posn) :
  0 <= n <= 60 ->
  all_chars is_ascii (Jira.Major (Jira.lower_bound prev next)) = true ->
  all_chars is_ascii (Jira.Major (Jira.upper_bound prev next)) = true ->
  (Nat.max (len (Jira.Major (Jira.lower_bound prev next)))
           (len (Jira.Major (Jira.upper_bound prev next))) + 1 <= fuel)%nat ->
  Jira.Ranks fuel n prev next <> OutOfFuel.
Proof.
  intros Hn Hal Hau Hfuel.
  unfold Jira.Ranks.
  destruct (n >? MaxMultiRank); [discriminate|].
  destruct (negb _); [|discriminate].
  unfold Jira.majorRanks.
  set (lower := Jira.lower_bound prev next) in *.
  set (upper := Jira.upper_bound prev next) in *.
  pose proof (jira_loop_terminates fuel n (Jira.Bucket lower)
                (Jira.max (Z.of_nat (len (Jira.Major lower)))
                          (Z.of_nat (len (Jira.Major upper))))
                (Nat.max (len (Jira.Major lower)) (len (Jira.Major upper)))
                (Jira.mkState (Jira.Major lower) (Jira.Major upper) "" 0) Hn)
    as H.
  destruct (Jira.majorRanks_loop _ _ _ _ _) as [[out|]|p|]; cbn [bind];
    try discriminate.
  exfalso. apply H; [|cbn [Jira.i]; lia|reflexivity].
  unfold bounded. cbn [Jira.prevMajor Jira.nextMajor Jira.i].
  repeat split; try assumption; lia.
Qed.

(** X21. For a batch of 0 to 60 the plain-string [Ranks] comes to an end,
    with a result or an abort, within max(len(prev), len(next)) + 1 passes
    through the loop, on any bounds. *)
Lemma simple_Ranks_terminates (fuel : nat) (n : Z) (prev next : string) :
  0 <= n <= 60 ->
  (Nat.max (len (if String.eqb prev "" then "0" else prev))
           (len (if String.eqb next "" then "z" else next)) + 1 <= fuel)%nat ->
  Simple.Ranks fuel n prev next <> OutOfFuel.
Proof.
  intros Hn Hfuel. unfold Simple.Ranks.
  destruct (n >? MaxMultiRank); [discriminate|].
  apply simple_loop_terminates; [exact Hn|lia|].
  change (string_of_byte minChar) with "0".
  change (string_of_byte maxChar) with "z". lia.
Qed.

(** ** Majors that differ in their last byte only *)

Lemma app_assoc_str (a b c : string) : (a ++ b) ++ c = a ++ b ++ c.
Proof.
  induction a as [|x a IH]; simpl; [reflexivity|].
  now rewrite IH.
Qed.

Lemma getChar_app_head (p r : string) (c d : ascii) :
  getChar (p ++ String c r) (len p) d = c.
Proof.
  unfold getChar.
  destruct (len (p ++ String c r) <=? len p)%nat eqn:E.
  - tests. rewrite len_app in E. cbn [len String.length] in E. lia.
  - clear E. induction p as [|x p IH]; simpl; [reflexivity|exact IH].
Qed.

Lemma prefix_app (p x : string) : String.substring 0 (len p) (p ++ x) = p.
Proof.
  unfold len.
  induction p as [|c p IH]; simpl.
  - destruct x; reflexivity.
  - now rewrite IH.
Qed.

(** The passes over a common ASCII run [q] copy it to [rank]. *)
Lemma common_prefix_passes (n bucket majorLen : Z) (q : string) :
  forall p x y r : string,
    all_chars is_ascii q = true ->
    passes (len q) n bucket majorLen
      (Jira.mkState (p ++ q ++ x) (p ++ q ++ y) r (len p))
    = Some (Jira.mkState (p ++ q ++ x) (p ++ q ++ y) (r ++ q)
                         (len p + len q)).
Proof.
  induction q as [|c q IH]; intros p x y r Hq.
  - cbn [passes len String.length].
    now rewrite app_empty_r, Nat.add_0_r.
  - cbn [all_chars] in Hq. apply andb_true_iff in Hq. destruct Hq as [Hc Hq].
    unfold is_ascii in Hc. tests.
    cbn [len String.length passes].
    unfold Jira.majorRanks_body.
    cbn [Jira.prevMajor Jira.nextMajor Jira.rank Jira.i append].
    rewrite !getChar_app_head, Ascii.eqb_refl.
    rewrite string_of_byte_ascii by exact Hc.
    specialize (IH (p ++ String c "") x y (r ++ String c "") Hq).
    rewrite !app_assoc_str in IH. cbn [append] in IH.
    rewrite len_app in IH. cbn [len String.length] in IH.
    rewrite Nat.add_1_r in IH.
    unfold len in *. rewrite IH.
    f_equal. f_equal. lia.
Qed.

(** X22. For a batch of 0 to 60: whenever the two majors are the same ASCII
    run [q] followed by one byte each, the two bytes differ, the upper
    major's byte is below 128, and the batch finds no room between the two
    bytes, the search over the majors ends with ok = false after
    [len q + 2] passes, and [Ranks] aborts in [minorRanks]. *)
Lemma last_byte_no_room (fuel : nat) (n b1 b2 : Z) (q m1 m2 : string)
      (a b : ascii) :
  0 <= n <= 60 ->
  all_chars is_ascii q = true ->
  is_ascii b = true ->
  Ascii.eqb a b = false ->
  Jira.mids n a b = Ok None ->
  Jira.majorRanks (len q + (2 + fuel)) n
    (Jira.mkPosn b1 (q ++ String a "") m1) (Jira.mkPosn b2 (q ++ String b "") m2)
  = Ok None
  /\ Jira.Ranks (len q + (2 + fuel)) n
       (Some (Jira.mkPosn b1 (q ++ String a "") m1))
       (Some (Jira.mkPosn b2 (q ++ String b "") m2))
     = Panic Todo.
Proof.
  intros Hn Hq Hb Hab Hm.
  assert (Jira.majorRanks (len q + (2 + fuel)) n
            (Jira.mkPosn b1 (q ++ String a "") m1)
            (Jira.mkPosn b2 (q ++ String b "") m2) = Ok None) as Hmajor.
  { unfold Jira.majorRanks. cbn [Jira.Major Jira.Bucket].
    pose proof (common_prefix_passes n b1
                  (Jira.max (Z.of_nat (len (q ++ String a "")))
                            (Z.of_nat (len (q ++ String b ""))))
                  q "" (String a "") (String b "") "" Hq) as Hp.
    cbn [append len String.length Nat.add] in Hp. fold (len q) in Hp.
    rewrite (loop_passes _ _ _ _ _ _ _ Hp).
    (* the fork at the last byte *)
    cbn [Nat.add Jira.majorRanks_loop].
    unfold Jira.majorRanks_body at 1.
    cbn [Jira.prevMajor Jira.nextMajor Jira.rank Jira.i].
    rewrite !getChar_app_head, Hab, Hm. cbn [bind].
    rewrite !(getChar_default _ (len q + 1))
      by (rewrite len_app; cbn [len String.length]; lia).
    replace (Jira.byteToOrder minChar) with (Ok 0) by reflexivity.
    replace (Jira.byteToOrder maxChar) with (Ok 61) by reflexivity.
    cbn [bind].
    replace (wrap8 (MaxMultiRank - 0) >? 61) with false by reflexivity.
    assert (slice_to (q ++ String a "") (Z.of_nat (len q)) = Ok q) as ->.
    { unfold slice_to.
      destruct (Z.of_nat (len q) <? 0) eqn:E1; [tests; lia|].
      destruct (Z.of_nat (len (q ++ String a "")) <? Z.of_nat (len q)) eqn:E2.
      - tests. rewrite len_app in E2. lia.
      - cbn [orb]. now rewrite Nat2Z.id, prefix_app. }
    cbn [bind].
    unfold is_ascii in Hb. tests.
    rewrite string_of_byte_ascii by exact Hb.
    (* the pass beyond the end of both majors *)
    unfold Jira.majorRanks_body.
    cbn [Jira.prevMajor Jira.nextMajor Jira.rank Jira.i].
    rewrite !(getChar_default _ (S (len q)))
      by (rewrite len_app; cbn [len String.length]; lia).
    change (Ascii.eqb minChar maxChar) with false. cbv iota.
    rewrite mids_same.
    destruct (mids_defaults_room n Hn) as [ch ->]. cbn [bind].
    replace (Z.of_nat (len (q ++ String b "")) =?
             Jira.max (Z.of_nat (len (q ++ String a "")))
                      (Z.of_nat (len (q ++ String b "")))) with true.
    - reflexivity.
    - symmetry. apply Z.eqb_eq. unfold Jira.max.
      rewrite !len_app. cbn [len String.length].
      destruct (_ >? _); reflexivity. }
  split; [exact Hmajor|].
  unfold Jira.Ranks.
  destruct (n >? MaxMultiRank) eqn:E;
    [tests; change MaxMultiRank with 61 in E; lia|].
  cbn [Jira.lower_bound Jira.upper_bound Jira.Major].
  rewrite Hmajor.
  destruct (negb _); reflexivity.
Qed.

(** ** The ranks of one batch are strictly increasing *)

Lemma fill_nth (prevo per : Z) (cnt : nat) :
  forall (j : nat) (l : list ascii) (k : nat) (c : ascii),
    fill prevo per j cnt = Ok l ->
    nth_error l k = Some c ->
    index orderToByte (prevo + per * (Z.of_nat (j + k) + 1)) = Ok c.
Proof.
  induction cnt as [|cnt IH]; intros j l k c H Hk; simpl in H.
  - injection H as <-. destruct k; discriminate.
  - destruct (index orderToByte _) as [c0| |] eqn:Ei; try discriminate.
    cbn [bind] in H.
    destruct (fill prevo per (S j) cnt) as [rest| |] eqn:E; try discriminate.
    cbn [bind] in H. injection H as <-.
    destruct k as [|k]; simpl in Hk.
    + injection Hk as <-. now rewrite Nat.add_0_r.
    + specialize (IH (S j) rest k c E Hk).
      replace (j + S k)%nat with (S j + k)%nat by lia. exact IH.
Qed.

(** The [k]-th byte of [mids] is the symbol at ordinal
    order(prev) + spacing * (k + 1). *)
Lemma mids_nth (n : Z) (a b : ascii) (ch : list ascii) (k : nat) (c : ascii) :
  Jira.mids n a b = Ok (Some ch) ->
  nth_error ch k = Some c ->
  index orderToByte
    (Jira._byteToOrder a
     + Z.quot (wrap8 (Jira._byteToOrder b - Jira._byteToOrder a)) (n + 1)
       * (Z.of_nat k + 1)) = Ok c.
Proof.
  unfold Jira.mids. rewrite !byteToOrder_ok. cbn [bind].
  destruct (n + 1 =? 0); [discriminate|].
  destruct (_ <? 1); [discriminate|].
  destruct (fill _ _ 0 (Z.to_nat n)) as [l| |] eqn:E; try discriminate.
  cbn [bind]. intros H Hk. injection H as <-.
  apply (fill_nth _ _ _ _ _ _ _ E Hk).
Qed.

(** The alphabet is laid out in increasing byte order. *)
Lemma orderToByte_increasing (x1 x2 : Z) (c1 c2 : ascii) :
  index orderToByte x1 = Ok c1 ->
  index orderToByte x2 = Ok c2 ->
  x1 < x2 ->
  byte_of c1 < byte_of c2.
Proof.
  assert (forallb
            (fun k1 =>
               forallb
                 (fun k2 =>
                    if (k1 <? k2)%nat then
                      match String.get k1 orderToByte,
                            String.get k2 orderToByte with
                      | Some d1, Some d2 => byte_of d1 <? byte_of d2
                      | _, _ => true
                      end
                    else true) (seq 0 62)) (seq 0 62) = true) as Hall
      by (vm_compute; reflexivity).
  unfold index. change (Z.of_nat (len orderToByte)) with 62.
  destruct ((x1 <? 0) || (62 <=? x1)) eqn:E1; [discriminate|].
  destruct ((x2 <? 0) || (62 <=? x2)) eqn:E2; [discriminate|].
  destruct (String.get (Z.to_nat x1) orderToByte) as [d1|] eqn:G1;
    [|discriminate].
  destruct (String.get (Z.to_nat x2) orderToByte) as [d2|] eqn:G2;
    [|discriminate].
  intros H1 H2 Hlt. injection H1 as ->. injection H2 as ->.
  tests.
  rewrite forallb_forall in Hall.
  specialize (Hall (Z.to_nat x1)). rewrite forallb_forall in Hall.
  specialize (Hall ltac:(apply in_seq; lia) (Z.to_nat x2)
                   ltac:(apply in_seq; lia)).
  rewrite G1, G2 in Hall.
  destruct (Z.to_nat x1 <? Z.to_nat x2)%nat eqn:E.
  - tests. exact Hall.
  - apply Nat.ltb_ge in E. lia.
Qed.

Lemma str_ltb_after_prefix (r t1 t2 : string) (c1 c2 : ascii) :
  byte_of c1 < byte_of c2 ->
  str_ltb (r ++ String c1 t1) (r ++ String c2 t2) = true.
Proof.
  intros H. unfold str_ltb.
  induction r as [|x r IH]; cbn [append String.compare].
  - unfold Ascii.compare.
    replace (N.compare (N_of_ascii c1) (N_of_ascii c2)) with Lt;
      [reflexivity|].
    symmetry. apply N.compare_lt_iff. unfold byte_of in H. lia.
  - unfold Ascii.compare at 1. rewrite N.compare_refl. exact IH.
Qed.

(** X23. On every successful generation the returned positions are strictly
    increasing under byte-wise comparison. *)
Lemma ranks_increasing (fuel : nat) (n : Z) (prev next : option Jira.Posn)
      (out : list Jira.Posn) :
  Jira.Ranks fuel n prev next = Ok (Some out) ->
  forall (k1 k2 : nat) (p1 p2 : Jira.Posn),
    (k1 < k2)%nat ->
    nth_error out k1 = Some p1 ->
    nth_error out k2 = Some p2 ->
    Jira.posn_ltb p1 p2 = true.
Proof.
  intros H k1 k2 p1 p2 Hlt H1 H2.
  apply Ranks_some in H. destruct H as (_ & _ & H).
  unfold Jira.majorRanks in H.
  apply loop_returns in H. destruct H as (k & st & _ & _ & Hb).
  apply body_returns_some in Hb.
  destruct Hb as (midChars & pad & Hm & _ & _ & ->).
  rewrite nth_error_map in H1, H2.
  destruct (nth_error midChars k1) as [c1|] eqn:E1; [|discriminate].
  destruct (nth_error midChars k2) as [c2|] eqn:E2; [|discriminate].
  cbn [option_map] in H1, H2. injection H1 as <-. injection H2 as <-.
  pose proof (mids_nth _ _ _ _ _ _ Hm E1) as I1.
  pose proof (mids_nth _ _ _ _ _ _ Hm E2) as I2.
  pose proof (mids_some _ _ _ _ Hm) as (_ & Hper & _ & Hsym).
  rewrite Forall_forall in Hsym.
  assert (byte_of c1 < byte_of c2) as Hbytes.
  { apply (orderToByte_increasing _ _ _ _ I1 I2). nia. }
  unfold Jira.posn_ltb. cbn [Jira.Bucket Jira.Major Jira.Minor].
  rewrite Z.ltb_irrefl, Z.eqb_refl.
  rewrite !string_of_byte_ascii
    by (apply symbol_ascii, Hsym; eapply nth_error_In; eassumption).
  cbn [append].
  now rewrite str_ltb_after_prefix.
Qed.

(** The same for the plain-string generator. *)
Lemma simple_loop_returns (fuel : nat) :
  forall (n : Z) (prev next rank : string) (j : nat) (out : list string),
    Simple.Ranks_loop fuel n prev next rank j = Ok (Some out) ->
    exists (r : string) (a b : ascii) (midChars : list ascii),
      Simple.mids n a b = Ok (Some midChars)
      /\ out = map (fun mid => r ++ string_of_byte mid) midChars.
Proof.
  induction fuel as [|fuel IH]; intros n prev next rank j out H;
    [discriminate|].
  cbn [Simple.Ranks_loop] in H.
  destruct (Ascii.eqb _ _); [now apply IH in H|].
  destruct (Simple.mids n _ _) as [[ch|]| |] eqn:E; cbn [bind] in H;
    try discriminate.
  - injection H as <-.
    exists rank, (getChar prev j minChar), (getChar next j maxChar), ch.
    split; [exact E|reflexivity].
  - now apply IH in H.
Qed.

(** X24. The ranks that the plain-string [Ranks] returns are strictly
    increasing under byte-wise comparison. *)
Lemma simple_ranks_increasing (fuel : nat) (n : Z) (prev next : string)
      (out : list string) :
  Simple.Ranks fuel n prev next = Ok (Some out) ->
  forall (k1 k2 : nat) (s1 s2 : string),
    (k1 < k2)%nat ->
    nth_error out k1 = Some s1 ->
    nth_error out k2 = Some s2 ->
    str_ltb s1 s2 = true.
Proof.
  intros H k1 k2 s1 s2 Hlt H1 H2.
  unfold Simple.Ranks in H.
  destruct (n >? MaxMultiRank); [discriminate|].
  apply simple_loop_returns in H.
  destruct H as (r & a & b & midChars & Hm & ->).
  rewrite <- mids_same in Hm.
  rewrite nth_error_map in H1, H2.
  destruct (nth_error midChars k1) as [c1|] eqn:E1; [|discriminate].
  destruct (nth_error midChars k2) as [c2|] eqn:E2; [|discriminate].
  cbn [option_map] in H1, H2. injection H1 as <-. injection H2 as <-.
  pose proof (mids_nth _ _ _ _ _ _ Hm E1) as I1.
  pose proof (mids_nth _ _ _ _ _ _ Hm E2) as I2.
  pose proof (mids_some _ _ _ _ Hm) as (_ & Hper & _ & Hsym).
  rewrite Forall_forall in Hsym.
  assert (byte_of c1 < byte_of c2) as Hbytes.
  { apply (orderToByte_increasing _ _ _ _ I1 I2). nia. }
  rewrite !string_of_byte_ascii
    by (apply symbol_ascii, Hsym; eapply nth_error_In; eassumption).
  now apply str_ltb_after_prefix.
Qed.

(** The difference of two orders as a byte: it wraps when the second order
    is the smaller one. *)
Lemma wrap8_orders (a b : ascii) :
  (Jira._byteToOrder a <= Jira._byteToOrder b
   /\ wrap8 (Jira._byteToOrder b - Jira._byteToOrder a)
      = Jira._byteToOrder b - Jira._byteToOrder a)
  \/ (Jira._byteToOrder b < Jira._byteToOrder a
      /\ wrap8 (Jira._byteToOrder b - Jira._byteToOrder a)
         = 256 + Jira._byteToOrder b - Jira._byteToOrder a).
Proof.
  pose proof (order_range a). pose proof (order_range b).
  unfold wrap8.
  destruct (Z_le_gt_dec (Jira._byteToOrder a) (Jira._byteToOrder b)).
  - left. split; [lia|]. apply Z.mod_small. lia.
  - right. split; [lia|].
    symmetry. apply (Z.mod_unique _ _ (-1)); lia.
Qed.

(** The byte of [q ++ xs] just after [q], a default past the end. *)
Lemma getChar_after (q xs : string) (d : ascii) :
  getChar (q ++ xs) (len q) d = getChar xs 0 d.
Proof.
  destruct xs as [|c xs].
  - rewrite app_empty_r. now rewrite getChar_default by lia.
  - now rewrite getChar_app_head.
Qed.

Lemma app_inv_head_str (q s t : string) : q ++ s = q ++ t -> s = t.
Proof.
  induction q as [|c q IH]; cbn [append]; intros H; [exact H|].
  injection H as H. now apply IH.
Qed.

Lemma slice_trailer_short (h : Z) :
  0 <= h <= 8 -> exists tr, slice_to Jira.trailer h = Ok tr.
Proof.
  intros H. unfold slice_to.
  change (Z.of_nat (len Jira.trailer)) with 8.
  destruct (h <? 0) eqn:E1; [tests; lia|].
  destruct (8 <? h) eqn:E2; [tests; lia|].
  now eexists.
Qed.

(** ** Batch sizes of 0 and -1 *)

Lemma mids_minus_1 (a b : ascii) :
  Jira.mids (-1) a b = Panic DivideByZero
  /\ Simple.mids (-1) a b = Panic DivideByZero.
Proof.
  split; [rewrite mids_same|]; reflexivity.
Qed.

(** For a batch of 0 the spacing is the whole difference of the orders:
    there is room, for no symbols at all, exactly when the orders differ. *)
Lemma mids_0 (a b : ascii) :
  Simple.mids 0 a b
  = if Jira._byteToOrder a =? Jira._byteToOrder b then Ok None
    else Ok (Some []).
Proof.
  unfold Simple.mids. change Simple.byteToOrder with Jira._byteToOrder.
  change (0 + 1 =? 0) with false. cbv iota.
  change (0 + 1) with 1. rewrite Z.quot_1_r.
  change (Z.to_nat 0) with 0%nat. cbn [fill bind].
  pose proof (order_range a). pose proof (order_range b).
  destruct (wrap8_orders a b) as [[Hle ->] | [Hlt ->]].
  - destruct (_ <? 1) eqn:E1; destruct (_ =? _) eqn:E2; tests;
      try reflexivity; lia.
  - destruct (_ <? 1) eqn:E1; destruct (_ =? _) eqn:E2; tests;
      try reflexivity; lia.
Qed.

(** With a batch of -1 the loop of [majorRanks] passes over the bytes the
    majors share and divides by zero at the first index where they differ,
    which is the longer length at the latest. *)
Lemma jira_loop_minus_1 (fuel : nat) :
  forall (bucket majorLen : Z) (L : nat) (st : Jira.loop_state),
    (len (Jira.prevMajor st) <= L)%nat ->
    (len (Jira.nextMajor st) <= L)%nat ->
    (Jira.i st <= L)%nat ->
    (L + 1 <= fuel + Jira.i st)%nat ->
    Jira.majorRanks_loop fuel (-1) bucket majorLen st = Panic DivideByZero.
Proof.
  induction fuel as [|fuel IH]; intros bucket majorLen L st Hp Hx Hi Hfuel;
    [lia|].
  cbn [Jira.majorRanks_loop]. unfold Jira.majorRanks_body.
  destruct (Ascii.eqb _ _) eqn:E.
  - cbn [bind].
    assert (Jira.i st < L)%nat as Hlt.
    { destruct (le_lt_dec L (Jira.i st)) as [Hend|Hin]; [|exact Hin].
      rewrite !getChar_default in E by lia. discriminate E. }
    apply (IH _ _ L); cbn [Jira.prevMajor Jira.nextMajor Jira.i]; lia.
  - now rewrite (proj1 (mids_minus_1 _ _)).
Qed.

Lemma simple_loop_minus_1 (fuel : nat) :
  forall (prev next rank : string) (j : nat),
    (j <= Nat.max (len prev) (len next))%nat ->
    (Nat.max (len prev) (len next) + 1 <= fuel + j)%nat ->
    Simple.Ranks_loop fuel (-1) prev next rank j = Panic DivideByZero.
Proof.
  induction fuel as [|fuel IH]; intros prev next rank j Hj Hfuel; [lia|].
  cbn [Simple.Ranks_loop].
  destruct (Ascii.eqb _ _) eqn:E.
  - assert (j < Nat.max (len prev) (len next))%nat as Hlt.
    { destruct (le_lt_dec (Nat.max (len prev) (len next)) j) as [Hend|Hin];
        [|exact Hin].
      rewrite !getChar_default in E by lia. discriminate E. }
    apply IH; lia.
  - now rewrite (proj2 (mids_minus_1 _ _)).
Qed.

Lemma simple_loop_0 (fuel : nat) :
  forall (prev next rank : string) (j : nat),
    (j <= Nat.max (len prev) (len next))%nat ->
    (Nat.max (len prev) (len next) + 1 <= fuel + j)%nat ->
    Simple.Ranks_loop fuel 0 prev next rank j = Ok (Some []).
Proof.
  induction fuel as [|fuel IH]; intros prev next rank j Hj Hfuel; [lia|].
  cbn [Simple.Ranks_loop].
  destruct (le_lt_dec (Nat.max (len prev) (len next)) j) as [Hend|Hin].
  - rewrite !getChar_default by lia.
    change (Ascii.eqb minChar maxChar) with false. cbv iota.
    rewrite mids_0. reflexivity.
  - destruct (Ascii.eqb _ _); [apply IH; lia|].
    rewrite mids_0.
    destruct (_ =? _); cbn [bind map]; [apply IH; lia|reflexivity].
Qed.

(** C9 as the claim states it fails.  With n = 0 the two 10-byte majors
    "0000000000" and "zzzzzzzzzz", which differ in every byte, do not give
    the empty sequence: the trailer slice aborts.  With n = -1 and two
    equal majors the call does not reach the division: it aborts in
    [minorRanks]. *)
Lemma C9_other_bounds_do_otherwise :
  ~ (forall (fuel : nat) (prev next : Jira.Posn),
        Jira._byteToOrder (getChar (Jira.Major prev) 0 minChar)
        <> Jira._byteToOrder (getChar (Jira.Major next) 0 maxChar) ->
        Jira.Ranks (S fuel) 0 (Some prev) (Some next) = Ok (Some []))
  /\ ~ (forall prev next : Jira.Posn,
           exists fuel : nat,
             Jira.Ranks fuel (-1) (Some prev) (Some next)
             = Panic DivideByZero).
Proof.
  split; intros H.
  - specialize (H 0%nat (Jira.mkPosn 0 "0000000000" ":")
                  (Jira.mkPosn 0 "zzzzzzzzzz" ":")).
    assert (Jira.Ranks 1 0 (Some (Jira.mkPosn 0 "0000000000" ":"))
                           (Some (Jira.mkPosn 0 "zzzzzzzzzz" ":"))
            = Panic SliceOutOfRange) as Hgot by (vm_compute; reflexivity).
    rewrite H in Hgot; [discriminate Hgot|].
    vm_compute. discriminate.
  - destruct (H (Jira.mkPosn 0 "a" ":") (Jira.mkPosn 0 "a" ":")) as [fuel Hf].
    unfold Jira.Ranks in Hf. cbn in Hf. discriminate Hf.
Qed.

(** C9, amended.  The lower limit of the batch size is not checked.
    With n = 0, [Ranks] returns the empty sequence with ok = true whenever
    the two majors share an ASCII run, go on with bytes of different order
    (a major that ends there counting as its default byte), and the longer
    one goes on for 1 to 9 bytes; such are the majors "0" and "z".  With
    n = -1, [Ranks] aborts with an integer division by zero in [mids]
    whenever the two majors differ.  The plain-string [Ranks] returns the
    empty sequence with ok = true for n = 0, and divides by zero for
    n = -1, on all bounds.  In each case the number of passes through the
    loop is at most the longer length plus 1. *)
Theorem C9_no_lower_limit :
  (forall (fuel : nat) (b1 b2 : Z) (q xs ys m1 m2 : string),
      all_chars is_ascii q = true ->
      Jira._byteToOrder (getChar xs 0 minChar)
      <> Jira._byteToOrder (getChar ys 0 maxChar) ->
      (1 <= Nat.max (len xs) (len ys) <= 9)%nat ->
      Jira.Ranks (len q + S fuel) 0
        (Some (Jira.mkPosn b1 (q ++ xs) m1))
        (Some (Jira.mkPosn b2 (q ++ ys) m2)) = Ok (Some []))
  /\ (forall (fuel : nat) (prev next : option Jira.Posn),
         Jira.Major (Jira.lower_bound prev next)
         <> Jira.Major (Jira.upper_bound prev next) ->
         (Nat.max (len (Jira.Major (Jira.lower_bound prev next)))
                  (len (Jira.Major (Jira.upper_bound prev next))) + 1
          <= fuel)%nat ->
         Jira.Ranks fuel (-1) prev next = Panic DivideByZero)
  /\ (forall (fuel : nat) (prev next : string),
         (Nat.max (len (if String.eqb prev "" then "0" else prev))
                  (len (if String.eqb next "" then "z" else next)) + 1
          <= fuel)%nat ->
         Simple.Ranks fuel 0 prev next = Ok (Some [])
         /\ Simple.Ranks fuel (-1) prev next = Panic DivideByZero)
  /\ (forall a b : ascii,
         Jira.mids (-1) a b = Panic DivideByZero
         /\ Simple.mids (-1) a b = Panic DivideByZero).
Proof.
  split; [|split; [|split]].
  - intros fuel b1 b2 q xs ys m1 m2 Hq Hord Hlen.
    assert (q ++ xs <> q ++ ys) as Hne.
    { intros Heq. apply app_inv_head_str in Heq. subst ys.
      destruct xs as [|a x]; [cbn [len String.length Nat.max] in Hlen; lia|].
      now apply Hord. }
    unfold Jira.Ranks. change (0 >? MaxMultiRank) with false. cbv iota.
    cbn [Jira.lower_bound Jira.upper_bound Jira.Major].
    apply String.eqb_neq in Hne. rewrite Hne. cbn [negb].
    unfold Jira.majorRanks. cbn [Jira.Major Jira.Bucket].
    set (majorLen := Jira.max _ _).
    assert (majorLen
            = Z.of_nat (len q) + Z.of_nat (Nat.max (len xs) (len ys)))
      as HmajorLen.
    { unfold majorLen, Jira.max. rewrite !len_app.
      destruct (_ >? _) eqn:E; tests; lia. }
    pose proof (common_prefix_passes 0 b1 majorLen q "" xs ys "" Hq) as Hp.
    cbn [append len String.length Nat.add] in Hp. fold (len q) in Hp.
    rewrite (loop_passes _ _ _ _ _ _ _ Hp).
    cbn [Jira.majorRanks_loop]. unfold Jira.majorRanks_body.
    cbn [Jira.prevMajor Jira.nextMajor Jira.rank Jira.i].
    rewrite !getChar_after.
    assert (Ascii.eqb (getChar xs 0 minChar) (getChar ys 0 maxChar) = false)
      as ->.
    { destruct (Ascii.eqb _ _) eqn:E; [|reflexivity].
      apply Ascii.eqb_eq in E. rewrite E in Hord. now elim Hord. }
    rewrite mids_same, mids_0.
    apply Z.eqb_neq in Hord. rewrite Hord. cbn [bind].
    destruct (Z.of_nat (len q) =? majorLen) eqn:E; [tests; lia|].
    destruct (slice_trailer_short (majorLen - 1 - Z.of_nat (len q)))
      as [tr ->]; [lia|].
    reflexivity.
  - intros fuel prev next Hne Hfuel.
    unfold Jira.Ranks. change (-1 >? MaxMultiRank) with false. cbv iota.
    apply String.eqb_neq in Hne. rewrite Hne. cbn [negb].
    unfold Jira.majorRanks.
    rewrite (jira_loop_minus_1 fuel _ _
               (Nat.max (len (Jira.Major (Jira.lower_bound prev next)))
                        (len (Jira.Major (Jira.upper_bound prev next)))));
      cbn [Jira.prevMajor Jira.nextMajor Jira.i]; [reflexivity|lia..].
  - intros fuel prev next Hfuel.
    unfold Simple.Ranks.
    change (0 >? MaxMultiRank) with false.
    change (-1 >? MaxMultiRank) with false. cbv iota.
    change (string_of_byte minChar) with "0".
    change (string_of_byte maxChar) with "z".
    split; [apply simple_loop_0|apply simple_loop_minus_1]; lia.
  - apply mids_minus_1.
Qed.

Lemma C9_no_lower_limit_witness :
  Jira.Ranks (len "" + 1) 0 (Some (Jira.mkPosn 0 ("" ++ "0") ":"))
                            (Some (Jira.mkPosn 0 ("" ++ "z") ":"))
  = Ok (Some [])
  /\ Jira.Ranks 2 (-1) (Some (Jira.mkPosn 0 "0" ":"))
                       (Some (Jira.mkPosn 0 "z" ":"))
     = Panic DivideByZero
  /\ (Simple.Ranks 2 0 "0" "z" = Ok (Some [])
      /\ Simple.Ranks 2 (-1) "0" "z" = Panic DivideByZero).
Proof.
  destruct C9_no_lower_limit as (H0 & Hm1 & Hs & _).
  split; [|split].
  - apply (H0 0%nat 0 0 "" "0" "z" ":" ":").
    + reflexivity.
    + vm_compute. discriminate.
    + vm_compute. lia.
  - apply (Hm1 2%nat (Some (Jira.mkPosn 0 "0" ":"))
               (Some (Jira.mkPosn 0 "z" ":"))).
    + discriminate.
    + vm_compute. lia.
  - apply (Hs 2%nat "0" "z"). vm_compute. lia.
Defined.

(** * Further properties of the code *)

(** ** The alphabet codec *)

Lemma index_order (k : Z) (c : ascii) :
  index orderToByte k = Ok c -> 0 <= k <= 61 /\ Jira._byteToOrder c = k.
Proof.
  assert (forallb (fun j => match String.get j orderToByte with
                            | Some d => Jira._byteToOrder d =? Z.of_nat j
                            | None => false
                            end) (seq 0 62) = true) as Hall
      by (vm_compute; reflexivity).
  unfold index. change (Z.of_nat (len orderToByte)) with 62.
  destruct ((k <? 0) || (62 <=? k)) eqn:E; [discriminate|].
  tests.
  rewrite forallb_forall in Hall.
  specialize (Hall (Z.to_nat k) ltac:(apply in_seq; lia)).
  destruct (String.get (Z.to_nat k) orderToByte) as [d|]; [|discriminate].
  intros Hc. injection Hc as <-.
  tests. split; lia.
Qed.

Lemma symbol_index (c : ascii) :
  is_symbol c = true -> index orderToByte (Jira._byteToOrder c) = Ok c.
Proof.
  destruct c as [[] [] [] [] [] [] [] []]; intros H;
    first [discriminate H | vm_compute; reflexivity].
Qed.

(** X1. [byteToOrder] never aborts: on every byte the range check passes,
    and the order it returns lies in 0..61 and is the one that the
    plain-string file computes. *)
Theorem X1_byteToOrder_never_aborts :
  forall b : ascii,
    exists k : Z,
      Jira.byteToOrder b = Ok k
      /\ 0 <= k <= 61
      /\ Simple.byteToOrder b = k.
Proof.
  intros b. exists (Jira._byteToOrder b).
  split; [apply byteToOrder_ok|].
  split; [apply order_range|reflexivity].
Qed.

Lemma index_some (k : Z) :
  0 <= k <= 61 -> exists c, index orderToByte k = Ok c.
Proof.
  intros Hk.
  assert (forallb (fun j => match String.get j orderToByte with
                            | Some _ => true
                            | None => false
                            end) (seq 0 62) = true) as Hall
      by (vm_compute; reflexivity).
  rewrite forallb_forall in Hall.
  specialize (Hall (Z.to_nat k) ltac:(apply in_seq; lia)).
  unfold index. change (Z.of_nat (len orderToByte)) with 62.
  destruct (k <? 0) eqn:E1; [tests; lia|].
  destruct (62 <=? k) eqn:E2; [tests; lia|].
  cbn [orb].
  destruct (String.get (Z.to_nat k) orderToByte) as [c|]; [|discriminate].
  now exists c.
Qed.

(** X2. Decoding after encoding: an index [k] into [orderToByte] is in
    range exactly for 0..61 - it yields a byte for each of these and aborts
    for every other [k] - and the symbol found at [k] has order [k], in
    both files. *)
Theorem X2_order_of_symbol_at :
  forall k : Z,
    ((exists c, index orderToByte k = Ok c) <-> 0 <= k <= 61)
    /\ (~ 0 <= k <= 61 -> index orderToByte k = Panic IndexOutOfRange)
    /\ forall c : ascii,
         index orderToByte k = Ok c ->
         Jira.byteToOrder c = Ok k
         /\ Simple.byteToOrder c = k
         /\ is_symbol c = true.
Proof.
  intros k. split; [|split].
  - split.
    + intros [c H]. now apply index_order in H.
    + apply index_some.
  - intros Hk. unfold index. change (Z.of_nat (len orderToByte)) with 62.
    destruct (k <? 0) eqn:E1; [reflexivity|].
    destruct (62 <=? k) eqn:E2; [reflexivity|].
    tests. lia.
  - intros c H.
    destruct (index_order k c H) as [Hk Ho].
    repeat split.
    + now rewrite byteToOrder_ok, Ho.
    + exact Ho.
    + now apply index_symbol in H.
Qed.

Lemma X2_order_of_symbol_at_witness :
  ((exists c, index orderToByte 45 = Ok c) <-> 0 <= 45 <= 61)
  /\ (Jira.byteToOrder "j" = Ok 45
      /\ Simple.byteToOrder "j" = 45
      /\ is_symbol "j" = true)
  /\ index orderToByte 62 = Panic IndexOutOfRange.
Proof.
  split; [|split].
  - apply (X2_order_of_symbol_at 45).
  - apply (proj2 (proj2 (X2_order_of_symbol_at 45)) "j"%char).
    vm_compute. reflexivity.
  - apply (proj1 (proj2 (X2_order_of_symbol_at 62))). lia.
Defined.

(** X3. Encoding after decoding: each of the 62 symbols is the byte of
    [orderToByte] at its own order. *)
Theorem X3_symbol_at_order :
  forall c : ascii,
    is_symbol c = true ->
    index orderToByte (Simple.byteToOrder c) = Ok c
    /\ Jira.byteToOrder c = Ok (Simple.byteToOrder c).
Proof.
  intros c H. split.
  - now apply symbol_index.
  - apply byteToOrder_ok.
Qed.

Lemma X3_symbol_at_order_witness :
  index orderToByte (Simple.byteToOrder "Q") = Ok "Q"%char
  /\ Jira.byteToOrder "Q" = Ok (Simple.byteToOrder "Q").
Proof.
  apply (X3_symbol_at_order "Q"%char).
  vm_compute. reflexivity.
Defined.

(** X4. On the 62 symbols the order agrees with the byte order: one symbol
    is the smaller byte exactly when it has the smaller order. *)
Theorem X4_order_follows_bytes :
  forall c1 c2 : ascii,
    is_symbol c1 = true ->
    is_symbol c2 = true ->
    (byte_of c1 < byte_of c2
     <-> Simple.byteToOrder c1 < Simple.byteToOrder c2).
Proof.
  intros c1 c2 H1 H2.
  pose proof (symbol_index c1 H1) as I1.
  pose proof (symbol_index c2 H2) as I2.
  change Simple.byteToOrder with Jira._byteToOrder.
  split; intros Hlt.
  - destruct (Z_lt_le_dec (Jira._byteToOrder c1) (Jira._byteToOrder c2))
      as [Ho|Ho]; [exact Ho|exfalso].
    destruct (Z.eq_dec (Jira._byteToOrder c1) (Jira._byteToOrder c2))
      as [He|Hne].
    + rewrite He in I1. rewrite I1 in I2. injection I2 as ->. lia.
    + pose proof (orderToByte_increasing _ _ _ _ I2 I1). lia.
  - apply (orderToByte_increasing _ _ _ _ I1 I2 Hlt).
Qed.

Lemma X4_order_follows_bytes_witness :
  byte_of "Z" < byte_of "a" <-> Simple.byteToOrder "Z" < Simple.byteToOrder "a".
Proof.
  apply (X4_order_follows_bytes "Z"%char "a"%char); reflexivity.
Defined.

(** ** The spacing computed by [mids] *)


Lemma quot_bounds (d m : Z) :
  0 <= d -> 0 < m ->
  m * Z.quot d m <= d < m * Z.quot d m + m.
Proof.
  intros Hd Hm.
  rewrite Z.quot_div_nonneg by lia.
  pose proof (Z.mul_div_le d m Hm).
  pose proof (Z.mul_succ_div_gt d m Hm).
  lia.
Qed.

(** A successful [mids] did not wrap: with a wrapped difference the last
    index of a batch of 1 or more is beyond the alphabet. *)
Lemma mids_some_no_wrap (n : Z) (a b : ascii) (ch : list ascii) :
  Jira.mids n a b = Ok (Some ch) ->
  1 <= n ->
  Jira._byteToOrder a < Jira._byteToOrder b.
Proof.
  intros Hm Hn.
  pose proof (mids_some _ _ _ _ Hm) as (_ & Hper & Hlen & _).
  destruct (wrap8_orders a b) as [[Hle Hw] | [Hgt Hw]].
  - rewrite Hw in Hper.
    destruct (Z.eq_dec (Jira._byteToOrder a) (Jira._byteToOrder b)) as [He|];
      [|lia].
    rewrite He, Z.sub_diag, Z.quot_0_l in Hper; lia.
  - exfalso.
    destruct (nth_error ch (Z.to_nat (n - 1))) as [c|] eqn:E.
    + pose proof (mids_nth _ _ _ _ _ _ Hm E) as Hi.
      apply index_order in Hi. destruct Hi as [Hi _].
      rewrite Z2Nat.id in Hi by lia.
      rewrite Hw in Hper, Hi.
      pose proof (order_range a). pose proof (order_range b).
      set (d := 256 + Jira._byteToOrder b - Jira._byteToOrder a) in *.
      pose proof (quot_bounds d (n + 1) ltac:(lia) ltac:(lia)) as Hq.
      set (per := Z.quot d (n + 1)) in *.
      assert (per + n <= per * n + 1) by nia.
      nia.
    + apply nth_error_None in E. lia.
Qed.

(** The orders of the bytes that [mids] returns. *)
Lemma mids_between (n : Z) (a b : ascii) (ch : list ascii) (k : nat)
      (c : ascii) :
  Jira.mids n a b = Ok (Some ch) ->
  nth_error ch k = Some c ->
  Jira._byteToOrder c
  = Jira._byteToOrder a
    + Z.quot (Jira._byteToOrder b - Jira._byteToOrder a) (n + 1)
      * (Z.of_nat k + 1)
  /\ Jira._byteToOrder a < Jira._byteToOrder c < Jira._byteToOrder b.
Proof.
  intros Hm Hk.
  pose proof (mids_some _ _ _ _ Hm) as (Hn0 & Hper & Hlen & _).
  assert (Z.of_nat k < n) as Hkn.
  { assert (k < List.length ch)%nat by (apply nth_error_Some; congruence).
    lia. }
  pose proof (mids_some_no_wrap _ _ _ _ Hm ltac:(lia)) as Hlt.
  pose proof (mids_nth _ _ _ _ _ _ Hm Hk) as Hi.
  apply index_order in Hi. destruct Hi as [_ Ho].
  destruct (wrap8_orders a b) as [[_ Hw] | [Hgt _]]; [|lia].
  rewrite Hw in Ho, Hper.
  split; [exact Ho|].
  pose proof (quot_bounds (Jira._byteToOrder b - Jira._byteToOrder a) (n + 1)
                ltac:(lia) ltac:(lia)) as Hq.
  rewrite Ho. nia.
Qed.

(** X5. What a successful [mids] returns: exactly [n] symbols of the
    alphabet; the [k]-th one (from 0) has the order
    order(prev) + spacing * (k + 1), where the spacing is
    (order(next) - order(prev)) div (n + 1); and every one of them lies
    strictly between [prev] and [next] in order. *)
Theorem X5_mids_evenly_spaced_inside :
  forall (n : Z) (prev next : ascii) (ch : list ascii),
    Jira.mids n prev next = Ok (Some ch) ->
    Simple.mids n prev next = Ok (Some ch)
    /\ Z.of_nat (List.length ch) = n
    /\ forall (k : nat) (c : ascii),
         nth_error ch k = Some c ->
         is_symbol c = true
         /\ Simple.byteToOrder c
            = Simple.byteToOrder prev
              + Z.quot (Simple.byteToOrder next - Simple.byteToOrder prev)
                       (n + 1) * (Z.of_nat k + 1)
         /\ Simple.byteToOrder prev < Simple.byteToOrder c
            < Simple.byteToOrder next.
Proof.
  intros n prev next ch Hm.
  split; [now rewrite <- mids_same|].
  pose proof (mids_some _ _ _ _ Hm) as (_ & _ & Hlen & Hsym).
  split; [exact Hlen|].
  intros k c Hk.
  split.
  - rewrite Forall_forall in Hsym. apply Hsym.
    eapply nth_error_In, Hk.
  - change Simple.byteToOrder with Jira._byteToOrder.
    apply (mids_between _ _ _ _ _ _ Hm Hk).
Qed.

Lemma X5_mids_evenly_spaced_inside_witness :
  Simple.mids 3 "0" "z" = Ok (Some ["F"; "U"; "j"]%char)
  /\ Z.of_nat (List.length ["F"; "U"; "j"]%char) = 3
  /\ forall (k : nat) (c : ascii),
       nth_error ["F"; "U"; "j"]%char k = Some c ->
       is_symbol c = true
       /\ Simple.byteToOrder c
          = Simple.byteToOrder "0"
            + Z.quot (Simple.byteToOrder "z" - Simple.byteToOrder "0") (3 + 1)
              * (Z.of_nat k + 1)
       /\ Simple.byteToOrder "0" < Simple.byteToOrder c
          < Simple.byteToOrder "z".
Proof.
  apply (X5_mids_evenly_spaced_inside 3 "0"%char "z"%char).
  vm_compute. reflexivity.
Defined.

Lemma fill_ok (prevo per : Z) (cnt : nat) :
  forall j : nat,
    (forall k : nat,
        (j <= k < j + cnt)%nat ->
        0 <= prevo + per * (Z.of_nat k + 1) <= 61) ->
    exists l, fill prevo per j cnt = Ok l.
Proof.
  induction cnt as [|cnt IH]; intros j H; cbn [fill].
  - now exists [].
  - assert (exists c, index orderToByte (prevo + per * (Z.of_nat j + 1)) = Ok c)
      as [c ->].
    { specialize (H j ltac:(lia)).
      unfold index. change (Z.of_nat (len orderToByte)) with 62.
      destruct (_ <? 0) eqn:E1; [tests; lia|].
      destruct (62 <=? _) eqn:E2; [tests; lia|].
      cbn [orb].
      destruct (String.get _ orderToByte) as [c|] eqn:G; [now exists c|].
      exfalso. tests.
      assert (forallb (fun j => match String.get j orderToByte with
                                | Some _ => true
                                | None => false
                                end) (seq 0 62) = true) as Hall
          by (vm_compute; reflexivity).
      rewrite forallb_forall in Hall.
      specialize (Hall (Z.to_nat (prevo + per * (Z.of_nat j + 1)))
                       ltac:(apply in_seq; lia)).
      now rewrite G in Hall. }
    cbn [bind].
    destruct (IH (S j)) as [l ->]; [intros k Hk; apply H; lia|].
    cbn [bind]. now eexists.
Qed.

Lemma fill_panic (prevo per : Z) (cnt : nat) :
  forall (j : nat) (p : panic),
    fill prevo per j cnt = Panic p -> p = IndexOutOfRange.
Proof.
  induction cnt as [|cnt IH]; intros j p; cbn [fill]; [discriminate|].
  unfold index.
  destruct (_ || _); cbn [bind]; [congruence|].
  destruct (String.get _ _); cbn [bind]; [|congruence].
  destruct (fill prevo per (S j) cnt) eqn:E; cbn [bind]; try discriminate.
  intros H. injection H as <-. now apply (IH (S j)).
Qed.

(** X6. When the order of [prev] is at most the order of [next] and the
    batch size is not negative, [mids] never aborts: it finds room exactly
    when the two orders are at least [n + 1] apart. *)
Theorem X6_mids_room_iff_gap :
  forall (n : Z) (prev next : ascii),
    0 <= n ->
    Simple.byteToOrder prev <= Simple.byteToOrder next ->
    (n + 1 <= Simple.byteToOrder next - Simple.byteToOrder prev ->
     exists ch, Simple.mids n prev next = Ok (Some ch)
                /\ Jira.mids n prev next = Ok (Some ch))
    /\ (Simple.byteToOrder next - Simple.byteToOrder prev < n + 1 ->
        Simple.mids n prev next = Ok None
        /\ Jira.mids n prev next = Ok None).
Proof.
  intros n prev next Hn Hle.
  change Simple.byteToOrder with Jira._byteToOrder in *.
  rewrite mids_same.
  pose proof (order_range prev). pose proof (order_range next).
  destruct (wrap8_orders prev next) as [[_ Hw] | [Hgt _]]; [|lia].
  pose proof (quot_bounds (Jira._byteToOrder next - Jira._byteToOrder prev)
                (n + 1) ltac:(lia) ltac:(lia)) as Hq.
  unfold Simple.mids. change Simple.byteToOrder with Jira._byteToOrder.
  rewrite Hw.
  destruct (n + 1 =? 0) eqn:E0; [tests; lia|].
  set (per := Z.quot (Jira._byteToOrder next - Jira._byteToOrder prev) (n + 1))
    in *.
  split; intros Hgap.
  - destruct (per <? 1) eqn:E1; [tests; nia|]. tests.
    destruct (fill_ok (Jira._byteToOrder prev) per (Z.to_nat n) 0) as [l ->].
    + intros k Hk. nia.
    + cbn [bind]. now exists l.
  - destruct (per <? 1) eqn:E1; [now split|]. tests. nia.
Qed.

Lemma X6_mids_room_iff_gap_witness :
  (1 + 1 <= Simple.byteToOrder "C" - Simple.byteToOrder "A" ->
   exists ch, Simple.mids 1 "A" "C" = Ok (Some ch)
              /\ Jira.mids 1 "A" "C" = Ok (Some ch))
  /\ (Simple.byteToOrder "C" - Simple.byteToOrder "A" < 1 + 1 ->
      Simple.mids 1 "A" "C" = Ok None /\ Jira.mids 1 "A" "C" = Ok None).
Proof.
  apply (X6_mids_room_iff_gap 1 "A"%char "C"%char).
  - lia.
  - vm_compute. discriminate.
Defined.

(** X7. When the order of [next] is below the order of [prev], the byte
    subtraction wraps to a large spacing, and for a batch of 1 to 61 [mids]
    aborts with an index out of range. *)
Theorem X7_mids_reversed_aborts :
  forall (n : Z) (prev next : ascii),
    1 <= n <= 61 ->
    Simple.byteToOrder next < Simple.byteToOrder prev ->
    Simple.mids n prev next = Panic IndexOutOfRange
    /\ Jira.mids n prev next = Panic IndexOutOfRange.
Proof.
  intros n prev next Hn Hlt.
  change Simple.byteToOrder with Jira._byteToOrder in *.
  rewrite mids_same.
  assert (Simple.mids n prev next = Panic IndexOutOfRange) as H;
    [|now split].
  pose proof (mids_runs n prev next) as Hruns.
  destruct (Simple.mids n prev next) as [[ch|]|p|] eqn:E;
    [exfalso|exfalso| |congruence].
  - rewrite <- mids_same in E.
    pose proof (mids_some_no_wrap _ _ _ _ E ltac:(lia)). lia.
  - revert E. unfold Simple.mids.
    change Simple.byteToOrder with Jira._byteToOrder.
    destruct (wrap8_orders prev next) as [[Hle _] | [_ Hw]]; [lia|].
    rewrite Hw.
    pose proof (order_range prev). pose proof (order_range next).
    pose proof (quot_bounds
                  (256 + Jira._byteToOrder next - Jira._byteToOrder prev)
                  (n + 1) ltac:(lia) ltac:(lia)) as Hq.
    destruct (n + 1 =? 0); [discriminate|].
    destruct (_ <? 1) eqn:E1; [tests; nia|].
    destruct (fill _ _ 0 (Z.to_nat n)); discriminate.
  - f_equal. revert E. unfold Simple.mids.
    destruct (n + 1 =? 0) eqn:E0; [tests; lia|].
    destruct (_ <? 1); [discriminate|].
    destruct (fill _ _ 0 (Z.to_nat n)) eqn:Ef; cbn [bind]; try discriminate.
    intros H. injection H as <-. now apply fill_panic in Ef.
Qed.

Lemma X7_mids_reversed_aborts_witness :
  Simple.mids 1 "5" "3" = Panic IndexOutOfRange
  /\ Jira.mids 1 "5" "3" = Panic IndexOutOfRange.
Proof.
  apply (X7_mids_reversed_aborts 1 "5"%char "3"%char).
  - lia.
  - vm_compute. reflexivity.
Defined.

(** ** What [Ranks] can return *)

Lemma simple_loop_some (fuel : nat) :
  forall (n : Z) (prev next rank : string) (j : nat)
         (r : option (list string)),
    Simple.Ranks_loop fuel n prev next rank j = Ok r -> r <> None.
Proof.
  induction fuel as [|fuel IH]; intros n prev next rank j r H;
    [discriminate|].
  cbn [Simple.Ranks_loop] in H.
  destruct (Ascii.eqb _ _); [now apply IH in H|].
  destruct (Simple.mids n _ _) as [[ch|]| |]; cbn [bind] in H;
    try discriminate.
  - injection H as <-. discriminate.
  - now apply IH in H.
Qed.

Lemma simple_Ranks_none (fuel : nat) (n : Z) (prev next : string) :
  Simple.Ranks fuel n prev next = Ok None -> 61 < n.
Proof.
  unfold Simple.Ranks. change MaxMultiRank with 61.
  destruct (n >? 61) eqn:E; tests; [lia|].
  intros H. now apply simple_loop_some in H.
Qed.

(** X8. The failure flag of [Ranks] means that the batch is too large and
    nothing else: in both files [Ranks] returns (nil, false) exactly when
    [n] exceeds [MaxMultiRank], whatever the bounds. *)
Theorem X8_false_only_when_too_large :
  forall (fuel : nat) (n : Z),
    (forall prev next : option Jira.Posn,
        Jira.Ranks fuel n prev next = Ok None <-> 61 < n)
    /\ (forall prev next : string,
           Simple.Ranks fuel n prev next = Ok None <-> 61 < n).
Proof.
  intros fuel n. split; intros prev next.
  - unfold Jira.Ranks. change MaxMultiRank with 61.
    destruct (n >? 61) eqn:E; tests; [split; [lia|reflexivity]|].
    split; [|lia]. intros H. exfalso.
    destruct (negb _); [|discriminate].
    destruct (Jira.majorRanks _ _ _ _) as [[out|]| |]; discriminate.
  - split; [apply simple_Ranks_none|].
    intros H. unfold Simple.Ranks. change MaxMultiRank with 61.
    destruct (n >? 61) eqn:E; tests; [reflexivity|lia].
Qed.

(** A batch of 1 that the plain-string [Ranks] returns has exactly one
    rank. *)
Lemma simple_Ranks_1_single (fuel : nat) (prev next : string)
      (lst : list string) :
  Simple.Ranks fuel 1 prev next = Ok (Some lst) -> exists s, lst = [s].
Proof.
  intros E. unfold Simple.Ranks in E.
  destruct (1 >? MaxMultiRank); [discriminate|].
  apply simple_loop_returns in E.
  destruct E as (r & a & b & midChars & Hm & ->).
  rewrite <- mids_same in Hm.
  pose proof (mids_some _ _ _ _ Hm) as (_ & _ & Hlen & _).
  destruct midChars as [|m1 [|m2 ms]]; cbn in Hlen; try lia.
  now eexists.
Qed.

(** X9. [Rank] does exactly what [Ranks] does for a batch of 1.  [Ranks]
    never returns its failure flag there, and a list it returns has exactly
    one rank, so [lst[0]] never aborts and [Rank] returns that rank with
    the flag true; [Rank] never returns its (prev, false) pair.  [Rank]
    aborts, or runs on, exactly when [Ranks] does. *)
Theorem X9_Rank_returns_the_single_rank :
  forall (fuel : nat) (prev next : string),
    Simple.Ranks fuel 1 prev next <> Ok None
    /\ (forall lst : list string,
           Simple.Ranks fuel 1 prev next = Ok (Some lst) ->
           exists s : string,
             lst = [s] /\ Simple.Rank fuel prev next = Ok (s, true))
    /\ (forall (s : string) (ok : bool),
           Simple.Rank fuel prev next = Ok (s, ok) ->
           ok = true /\ Simple.Ranks fuel 1 prev next = Ok (Some [s]))
    /\ (forall p : panic,
           Simple.Rank fuel prev next = Panic p
           <-> Simple.Ranks fuel 1 prev next = Panic p)
    /\ (Simple.Rank fuel prev next = OutOfFuel
        <-> Simple.Ranks fuel 1 prev next = OutOfFuel).
Proof.
  intros fuel prev next.
  assert (Simple.Ranks fuel 1 prev next <> Ok None) as Hnone.
  { intros E. apply simple_Ranks_none in E. lia. }
  split; [exact Hnone|].
  unfold Simple.Rank.
  destruct (Simple.Ranks fuel 1 prev next) as [[lst|]| |] eqn:E;
    cbn [bind]; [|now elim Hnone| |].
  - destruct (simple_Ranks_1_single _ _ _ _ E) as [s ->]. cbn [bind].
    split; [|split; [|split]].
    + intros lst H. injection H as <-. now exists s.
    + intros s' ok H. injection H as <- <-. split; reflexivity.
    + intros p. split; discriminate.
    + split; discriminate.
  - split; [discriminate|split; [discriminate|split]].
    + intros p'. split; intros H; injection H as <-; reflexivity.
    + split; discriminate.
  - split; [discriminate|split; [discriminate|split]].
    + intros p. split; discriminate.
    + split; reflexivity.
Qed.

Lemma X9_Rank_returns_the_single_rank_witness :
  exists s : string,
    ["AU"] = [s] /\ Simple.Rank 2 "A" "B" = Ok (s, true).
Proof.
  apply (X9_Rank_returns_the_single_rank 2 "A" "B").
  vm_compute. reflexivity.
Defined.

(** X10. Every generated position carries the bucket of the lower bound in
    use - the bucket of [prev] when it is given, else the bucket of [next]
    when that is given, else 0 - and the minor ":". *)
Theorem X10_bucket_and_minor_of_results :
  forall (fuel : nat) (n : Z) (prev next : option Jira.Posn)
         (out : list Jira.Posn) (p : Jira.Posn),
    Jira.Ranks fuel n prev next = Ok (Some out) ->
    In p out ->
    Jira.Bucket p = match prev, next with
                    | Some pv, _ => Jira.Bucket pv
                    | None, Some nx => Jira.Bucket nx
                    | None, None => 0
                    end
    /\ Jira.Minor p = ":".
Proof.
  intros fuel n prev next out p H Hin.
  apply Ranks_some in H. destruct H as (_ & _ & H).
  unfold Jira.majorRanks in H.
  apply loop_returns in H. destruct H as (k & st & _ & _ & Hb).
  apply body_returns_some in Hb.
  destruct Hb as (midChars & pad & _ & _ & _ & ->).
  apply in_map_iff in Hin. destruct Hin as (mid & <- & _).
  cbn [Jira.Bucket Jira.Minor].
  split; [|reflexivity].
  destruct prev as [pv|]; [reflexivity|].
  destruct next as [nx|]; reflexivity.
Qed.

Lemma X10_bucket_and_minor_of_results_witness :
  Jira.Bucket (Jira.mkPosn 2 "IUUUUU" ":") = 2
  /\ Jira.Minor (Jira.mkPosn 2 "IUUUUU" ":") = ":".
Proof.
  apply (X10_bucket_and_minor_of_results
           1 1 None (Some (Jira.mkPosn 2 "b" ":x"))
           [Jira.mkPosn 2 "IUUUUU" ":"]).
  - vm_compute. reflexivity.
  - left. reflexivity.
Defined.

(** ** Batch sizes for which nothing is ever generated *)

(** For a batch of 61 [mids] never finds room: the spacing would have to
    be at least 1 over 62 steps. *)
Lemma mids_61_never_some (a b : ascii) (ch : list ascii) :
  Jira.mids 61 a b <> Ok (Some ch).
Proof.
  intros Hm.
  pose proof (mids_some _ _ _ _ Hm) as (_ & Hper & _ & _).
  pose proof (mids_some_no_wrap _ _ _ _ Hm ltac:(lia)) as Hlt.
  destruct (wrap8_orders a b) as [[_ Hw] | [Hgt _]]; [|lia].
  rewrite Hw in Hper.
  pose proof (order_range a). pose proof (order_range b).
  pose proof (quot_bounds (Jira._byteToOrder b - Jira._byteToOrder a)
                (61 + 1) ltac:(lia) ltac:(lia)).
  lia.
Qed.

(** X11. A batch of 61 passes the size check of [Ranks] but is never
    generated: for no bounds and no amount of fuel does [Ranks] return with
    n = 61 in the Jira file, and in the plain-string file it never returns
    ranks. *)
Theorem X11_batch_61_never_generated :
  forall (fuel : nat),
    (forall (prev next : option Jira.Posn) (r : option (list Jira.Posn)),
        Jira.Ranks fuel 61 prev next <> Ok r)
    /\ (forall (prev next : string) (r : option (list string)),
           Simple.Ranks fuel 61 prev next <> Ok r).
Proof.
  intros fuel. split; intros prev next r H.
  - destruct r as [out|].
    + apply Ranks_some in H. destruct H as (_ & _ & H).
      unfold Jira.majorRanks in H.
      apply loop_returns in H. destruct H as (k & st & _ & _ & Hb).
      apply body_returns_some in Hb.
      destruct Hb as (midChars & pad & Hm & _).
      now apply mids_61_never_some in Hm.
    + revert H. unfold Jira.Ranks.
      destruct (61 >? MaxMultiRank) eqn:E; [discriminate E|].
      destruct (negb _); [|discriminate].
      destruct (Jira.majorRanks _ _ _ _) as [[out|]| |]; discriminate.
  - destruct r as [out|].
    + unfold Simple.Ranks in H.
      destruct (61 >? MaxMultiRank) eqn:E; [discriminate E|].
      apply simple_loop_returns in H.
      destruct H as (r & a & b & midChars & Hm & _).
      rewrite <- mids_same in Hm.
      now apply mids_61_never_some in Hm.
    + apply simple_Ranks_none in H. lia.
Qed.

(** With a divisor below 0 the spacing is never positive. *)
Lemma mids_negative_none (n : Z) (a b : ascii) :
  n < -1 -> Simple.mids n a b = Ok None.
Proof.
  intros Hn. unfold Simple.mids.
  destruct (n + 1 =? 0) eqn:E0; [tests; lia|].
  destruct (_ <? 1) eqn:E1; [reflexivity|exfalso]. tests.
  assert (0 <= wrap8 (Simple.byteToOrder b - Simple.byteToOrder a)) as Hd
      by (unfold wrap8; apply Z.mod_pos_bound; lia).
  set (d := wrap8 _) in *.
  assert (0 <= Z.quot d (- (n + 1))) by (apply Z.quot_pos; lia).
  rewrite Z.quot_opp_r in H by lia. lia.
Qed.

Lemma simple_loop_negative (fuel : nat) :
  forall (n : Z) (prev next rank : string) (j : nat),
    n < -1 -> Simple.Ranks_loop fuel n prev next rank j = OutOfFuel.
Proof.
  induction fuel as [|fuel IH]; intros n prev next rank j Hn; [reflexivity|].
  cbn [Simple.Ranks_loop].
  destruct (Ascii.eqb _ _); [now apply IH|].
  rewrite mids_negative_none by exact Hn. cbn [bind]. now apply IH.
Qed.

(** X12. A batch size below -1 is not rejected: [mids] then never finds
    room, so the plain-string [Ranks] loops for ever on any bounds, and the
    Jira [Ranks] never returns either (it loops or aborts). *)
Theorem X12_negative_batch_never_returns :
  forall (fuel : nat) (n : Z),
    n < -1 ->
    (forall prev next : string, Simple.Ranks fuel n prev next = OutOfFuel)
    /\ (forall (prev next : option Jira.Posn) (r : option (list Jira.Posn)),
           Jira.Ranks fuel n prev next <> Ok r).
Proof.
  intros fuel n Hn. split.
  - intros prev next. unfold Simple.Ranks. change MaxMultiRank with 61.
    destruct (n >? 61) eqn:E; [tests; lia|].
    now apply simple_loop_negative.
  - intros prev next r H. destruct r as [out|].
    + apply Ranks_some in H. destruct H as (_ & _ & H).
      unfold Jira.majorRanks in H.
      apply loop_returns in H. destruct H as (k & st & _ & _ & Hb).
      apply body_returns_some in Hb.
      destruct Hb as (midChars & pad & Hm & _).
      rewrite mids_same, mids_negative_none in Hm by exact Hn.
      discriminate.
    + revert H. unfold Jira.Ranks. change MaxMultiRank with 61.
      destruct (n >? 61) eqn:E; [tests; lia|].
      destruct (negb _); [|discriminate].
      destruct (Jira.majorRanks _ _ _ _) as [[out|]| |]; discriminate.
Qed.

Lemma X12_negative_batch_never_returns_witness :
  (forall prev next : string, Simple.Ranks 7 (-2) prev next = OutOfFuel)
  /\ (forall (prev next : option Jira.Posn) (r : option (list Jira.Posn)),
         Jira.Ranks 7 (-2) prev next <> Ok r).
Proof.
  apply (X12_negative_batch_never_returns 7 (-2)).
  lia.
Defined.

(** ** What [ParseJira] accepts *)

Lemma span_09az_split (s : string) :
  forall m r : string,
    Jira.span_09az s = (m, r) ->
    s = m ++ r /\ all_chars Jira.is_09az m = true.
Proof.
  induction s as [|c s IH]; intros m r H; cbn [Jira.span_09az] in H.
  - injection H as <- <-. split; reflexivity.
  - destruct (Jira.is_09az c) eqn:Ec.
    + destruct (Jira.span_09az s) as [m' r'] eqn:Es.
      injection H as <- <-.
      destruct (IH m' r' eq_refl) as [-> Hm].
      split; [reflexivity|]. cbn [all_chars]. now rewrite Ec, Hm.
    + injection H as <- <-. split; reflexivity.
Qed.

Lemma is_012_cases (b : ascii) :
  Jira.is_012 b = true ->
  (b = "0"%char \/ b = "1"%char \/ b = "2"%char).
Proof.
  destruct b as [[] [] [] [] [] [] [] []]; intros H;
    first [discriminate H | now left | now right; left | now right; right].
Qed.

(** A text that [ParseJira] accepts has the shape of the grammar, and the
    position returned prints back to exactly that text. *)
Lemma ParseJira_true (s : string) (p : Jira.Posn) :
  Jira.ParseJira s = (p, true) ->
  (Jira.Bucket p = 0 \/ Jira.Bucket p = 1 \/ Jira.Bucket p = 2)
  /\ Jira.Major p <> ""
  /\ all_chars Jira.is_09az (Jira.Major p) = true
  /\ (Jira.Minor p = ""
      \/ exists m, Jira.Minor p = String ":" m
                   /\ all_chars Jira.is_09az m = true)
  /\ Jira.Posn_String p = s.
Proof.
  unfold Jira.ParseJira, Jira.jiraRank_FindStringSubmatch.
  destruct s as [|b [|bar rest]]; try discriminate.
  destruct (Jira.is_012 b) eqn:Eb; cbn [andb]; [|discriminate].
  destruct (Ascii.eqb bar "|") eqn:Ebar; [|discriminate].
  apply Ascii.eqb_eq in Ebar. subst bar.
  destruct (Jira.span_09az rest) as [major rest1] eqn:Es.
  apply span_09az_split in Es. destruct Es as [-> Hmajor].
  destruct (String.eqb major "") eqn:Ene; [discriminate|].
  apply String.eqb_neq in Ene.
  assert (forall minor : string,
             Jira.Posn_String
               (Jira.mkPosn (wrap8 (byte_of b - byte_of "0")) major minor)
             = String b (String "|" (major ++ minor))) as Hprint.
  { intros minor. apply is_012_cases in Eb.
    destruct Eb as [-> | [-> | ->]]; reflexivity. }
  assert (wrap8 (byte_of b - byte_of "0") = 0
          \/ wrap8 (byte_of b - byte_of "0") = 1
          \/ wrap8 (byte_of b - byte_of "0") = 2) as Hbucket.
  { apply is_012_cases in Eb.
    destruct Eb as [-> | [-> | ->]];
      [left | right; left | right; right]; reflexivity. }
  destruct rest1 as [|colon rest2].
  - intros H. injection H as <-.
    cbn [Jira.Bucket Jira.Major Jira.Minor].
    repeat split; try assumption; [now left|apply Hprint].
  - destruct (Ascii.eqb colon ":") eqn:Ecolon; [|discriminate].
    apply Ascii.eqb_eq in Ecolon. subst colon.
    destruct (Jira.span_09az rest2) as [minor rest3] eqn:Es2.
    apply span_09az_split in Es2. destruct Es2 as [-> Hminor].
    destruct (String.eqb rest3 "") eqn:E3; [|discriminate].
    apply String.eqb_eq in E3. subst rest3.
    intros H. injection H as <-.
    cbn [Jira.Bucket Jira.Major Jira.Minor].
    rewrite app_empty_r.
    repeat split; try assumption; [|apply Hprint].
    right. exists minor. split; [reflexivity|exact Hminor].
Qed.

(** X13. Whatever text [ParseJira] accepts, the position it returns is
    well-formed - bucket 0, 1 or 2, a major of one or more bytes of 0-9 and
    a-z, a minor that is empty or a colon followed by bytes of 0-9 and a-z -
    and [String] prints it back to exactly the text that was parsed. *)
Theorem X13_parse_then_print :
  forall (s : string) (p : Jira.Posn),
    Jira.ParseJira s = (p, true) ->
    (Jira.Bucket p = 0 \/ Jira.Bucket p = 1 \/ Jira.Bucket p = 2)
    /\ Jira.Major p <> ""
    /\ all_chars Jira.is_09az (Jira.Major p) = true
    /\ (Jira.Minor p = ""
        \/ exists m, Jira.Minor p = String ":" m
                     /\ all_chars Jira.is_09az m = true)
    /\ Jira.Posn_String p = s.
Proof.
  intros s p H. now apply ParseJira_true.
Qed.

Lemma X13_parse_then_print_witness :
  (Jira.Bucket (Jira.mkPosn 2 "0i0z" ":") = 0
   \/ Jira.Bucket (Jira.mkPosn 2 "0i0z" ":") = 1
   \/ Jira.Bucket (Jira.mkPosn 2 "0i0z" ":") = 2)
  /\ Jira.Major (Jira.mkPosn 2 "0i0z" ":") <> ""
  /\ all_chars Jira.is_09az (Jira.Major (Jira.mkPosn 2 "0i0z" ":")) = true
  /\ (Jira.Minor (Jira.mkPosn 2 "0i0z" ":") = ""
      \/ exists m, Jira.Minor (Jira.mkPosn 2 "0i0z" ":") = String ":" m
                   /\ all_chars Jira.is_09az m = true)
  /\ Jira.Posn_String (Jira.mkPosn 2 "0i0z" ":") = "2|0i0z:".
Proof.
  apply (X13_parse_then_print "2|0i0z:" (Jira.mkPosn 2 "0i0z" ":")).
  vm_compute. reflexivity.
Defined.

(** X14. Printing and parsing returns the position only for well-formed
    positions: when the major has a byte outside 0-9 and a-z - as the
    uppercase symbols and the filler "U" of generated ranks are - or when
    the bucket is not 0, 1 or 2, [ParseJira] does not give the position
    back. *)
Theorem X14_no_round_trip_outside_base36 :
  forall p : Jira.Posn,
    (all_chars Jira.is_09az (Jira.Major p) = false
     \/ ~ (Jira.Bucket p = 0 \/ Jira.Bucket p = 1 \/ Jira.Bucket p = 2)) ->
    Jira.ParseJira (Jira.Posn_String p) <> (p, true).
Proof.
  intros p Hbad H.
  apply ParseJira_true in H.
  destruct H as (Hb & _ & Hmajor & _).
  destruct Hbad as [Hbad | Hbad]; [congruence|contradiction].
Qed.

Lemma X14_no_round_trip_outside_base36_witness :
  Jira.ParseJira (Jira.Posn_String (Jira.mkPosn 0 "006I" ":"))
  <> (Jira.mkPosn 0 "006I" ":", true).
Proof.
  apply (X14_no_round_trip_outside_base36 (Jira.mkPosn 0 "006I" ":")).
  left. vm_compute. reflexivity.
Defined.

(** ** Generated ranks and the bounds *)

Lemma order_lt_bytes (c1 c2 : ascii) :
  is_symbol c1 = true -> is_symbol c2 = true ->
  Jira._byteToOrder c1 < Jira._byteToOrder c2 ->
  byte_of c1 < byte_of c2.
Proof.
  intros H1 H2 Hlt.
  apply (orderToByte_increasing _ _ _ _ (symbol_index c1 H1)
                                (symbol_index c2 H2) Hlt).
Qed.

(** X16. With both bounds absent and a batch of 0 to 60, generation
    succeeds on the first pass.  The Jira file returns [n] positions with
    bucket 0, minor ":" and a 6-byte major - one symbol followed by
    "UUUUU" - strictly between the defaults "000000" and "zzzzzz"; the
    plain-string file returns [n] one-byte ranks strictly between "0" and
    "z". *)
Theorem X16_absent_bounds :
  forall (fuel : nat) (n : Z),
    0 <= n <= 60 ->
    exists ch : list ascii,
      Z.of_nat (List.length ch) = n
      /\ Jira.Ranks (S fuel) n None None
         = Ok (Some (map (fun mid =>
                            Jira.mkPosn 0 (String mid "UUUUU") ":") ch))
      /\ Simple.Ranks (S fuel) n "" ""
         = Ok (Some (map (fun mid => String mid "") ch))
      /\ forall mid : ascii,
           In mid ch ->
           str_ltb "000000" (String mid "UUUUU") = true
           /\ str_ltb (String mid "UUUUU") "zzzzzz" = true
           /\ str_ltb "0" (String mid "") = true
           /\ str_ltb (String mid "") "z" = true.
Proof.
  intros fuel n Hn.
  destruct (mids_defaults_room n Hn) as [ch Hm].
  pose proof Hm as Hj. rewrite <- mids_same in Hj.
  pose proof (mids_some _ _ _ _ Hj) as (_ & _ & Hlen & Hsym).
  rewrite Forall_forall in Hsym.
  exists ch. split; [exact Hlen|].
  assert ((n >? MaxMultiRank) = false) as Hsize.
  { change MaxMultiRank with 61.
    destruct (n >? 61) eqn:E; [tests; lia|reflexivity]. }
  split; [|split].
  - unfold Jira.Ranks, Jira.majorRanks. rewrite Hsize.
    cbn [Jira.lower_bound Jira.upper_bound Jira.Major Jira.Bucket].
    change (negb ("000000" =? "zzzzzz")%string) with true. cbv iota.
    cbn [Jira.majorRanks_loop]. unfold Jira.majorRanks_body.
    cbn [Jira.prevMajor Jira.nextMajor Jira.rank Jira.i].
    change (getChar "000000" 0 minChar) with minChar.
    change (getChar "zzzzzz" 0 maxChar) with maxChar.
    change (Ascii.eqb minChar maxChar) with false. cbv iota.
    rewrite Hj. cbn [bind].
    change (Z.of_nat (len "") =?
            Jira.max (Z.of_nat (len "000000")) (Z.of_nat (len "zzzzzz")))
      with false. cbv iota.
    change (slice_to Jira.trailer
              (Jira.max (Z.of_nat (len "000000")) (Z.of_nat (len "zzzzzz"))
               - 1 - Z.of_nat (len "")))
      with (@Ok string "UUUUU").
    cbn [bind]. do 2 f_equal.
    apply map_ext_in. intros mid Hin.
    rewrite string_of_byte_ascii by (apply symbol_ascii, Hsym, Hin).
    reflexivity.
  - unfold Simple.Ranks. rewrite Hsize.
    change (("" =? "")%string) with true. cbv iota.
    cbn [Simple.Ranks_loop].
    change (getChar (string_of_byte minChar) 0 minChar) with minChar.
    change (getChar (string_of_byte maxChar) 0 maxChar) with maxChar.
    change (Ascii.eqb minChar maxChar) with false. cbv iota.
    rewrite Hm. cbn [bind]. do 2 f_equal.
    apply map_ext_in. intros mid Hin.
    rewrite string_of_byte_ascii by (apply symbol_ascii, Hsym, Hin).
    reflexivity.
  - intros mid Hin.
    apply In_nth_error in Hin. destruct Hin as [k Hk].
    pose proof (mids_between _ _ _ _ _ _ Hj Hk) as (_ & Hlo & Hhi).
    assert (is_symbol mid = true) as Hmid
        by (apply Hsym; eapply nth_error_In, Hk).
    assert (byte_of "0" < byte_of mid) as Hb0
        by (apply order_lt_bytes; [reflexivity|exact Hmid|exact Hlo]).
    assert (byte_of mid < byte_of "z") as Hbz
        by (apply order_lt_bytes; [exact Hmid|reflexivity|exact Hhi]).
    repeat split.
    + apply (str_ltb_after_prefix "" "00000" "UUUUU" "0" mid Hb0).
    + apply (str_ltb_after_prefix "" "UUUUU" "zzzzz" mid "z" Hbz).
    + apply (str_ltb_after_prefix "" "" "" "0" mid Hb0).
    + apply (str_ltb_after_prefix "" "" "" mid "z" Hbz).
Qed.

Lemma X16_absent_bounds_witness :
  exists ch : list ascii,
    Z.of_nat (List.length ch) = 3
    /\ Jira.Ranks 1 3 None None
       = Ok (Some (map (fun mid => Jira.mkPosn 0 (String mid "UUUUU") ":") ch))
    /\ Simple.Ranks 1 3 "" "" = Ok (Some (map (fun mid => String mid "") ch))
    /\ forall mid : ascii,
         In mid ch ->
         str_ltb "000000" (String mid "UUUUU") = true
         /\ str_ltb (String mid "UUUUU") "zzzzzz" = true
         /\ str_ltb "0" (String mid "") = true
         /\ str_ltb (String mid "") "z" = true.
Proof.
  apply (X16_absent_bounds 0 3). lia.
Defined.

(** ** The plain-string ranks and the lower bound *)

(** A successful run of the plain-string loop went round [k] times, each
    time appending the lower bound's byte, and then found room. *)
Lemma simple_loop_shape (fuel : nat) :
  forall (n : Z) (prev next rank : string) (j : nat) (out : list string),
    Simple.Ranks_loop fuel n prev next rank j = Ok (Some out) ->
    exists (k : nat) (midChars : list ascii),
      Simple.mids n (getChar prev (j + k) minChar)
                    (getChar next (j + k) maxChar) = Ok (Some midChars)
      /\ out = map (fun mid =>
                      rank ++ lower_run prev j k ++ string_of_byte mid)
                   midChars.
Proof.
  induction fuel as [|fuel IH]; intros n prev next rank j out H;
    [discriminate|].
  cbn [Simple.Ranks_loop] in H.
  assert (forall out',
             Simple.Ranks_loop fuel n prev next
               (rank ++ string_of_byte (getChar prev j minChar)) (S j)
             = Ok (Some out') ->
             exists (k : nat) (midChars : list ascii),
               Simple.mids n (getChar prev (j + k) minChar)
                             (getChar next (j + k) maxChar)
               = Ok (Some midChars)
               /\ out' = map (fun mid =>
                                rank ++ lower_run prev j k
                                ++ string_of_byte mid) midChars) as Hgo.
  { intros out' H'. apply IH in H'.
    destruct H' as (k & midChars & Hm & ->).
    exists (S k), midChars.
    rewrite Nat.add_succ_r. split; [exact Hm|].
    apply map_ext. intros mid. cbn [lower_run].
    now rewrite !app_assoc_str. }
  destruct (Ascii.eqb _ _); [now apply Hgo|].
  destruct (Simple.mids n _ _) as [[ch|]| |] eqn:E; cbn [bind] in H;
    try discriminate.
  - injection H as <-. exists 0%nat, ch.
    rewrite Nat.add_0_r. split; [exact E|reflexivity].
  - now apply Hgo.
Qed.

Lemma getChar_cons (c d : ascii) (s : string) (j : nat) :
  getChar (String c s) (S j) d = getChar s j d.
Proof. reflexivity. Qed.

Lemma lower_run_cons (c : ascii) (s : string) (k : nat) :
  forall j : nat, lower_run (String c s) (S j) k = lower_run s j k.
Proof.
  induction k as [|k IH]; intros j; cbn [lower_run]; [reflexivity|].
  now rewrite getChar_cons, IH.
Qed.

Lemma str_ltb_cons (c : ascii) (s t : string) :
  str_ltb (String c s) (String c t) = str_ltb s t.
Proof.
  unfold str_ltb. cbn [String.compare].
  unfold Ascii.compare. now rewrite N.compare_refl.
Qed.

(** The lower bound's first [k] bytes, padded with the default, followed by
    a symbol of larger order than its byte at [k], sort above it. *)
Lemma above_lower_run (k : nat) :
  forall (prev : string) (mid : ascii),
    all_chars is_symbol prev = true ->
    is_symbol mid = true ->
    Jira._byteToOrder (getChar prev k minChar) < Jira._byteToOrder mid ->
    str_ltb prev (lower_run prev 0 k ++ String mid "") = true.
Proof.
  induction k as [|k IH]; intros prev mid Hprev Hmid Hlt.
  - cbn [lower_run append].
    destruct prev as [|c s]; [reflexivity|].
    cbn [all_chars] in Hprev. apply andb_true_iff in Hprev.
    destruct Hprev as [Hc _].
    apply (str_ltb_after_prefix "" s "" c mid).
    apply order_lt_bytes; assumption.
  - cbn [lower_run].
    destruct prev as [|c s].
    + unfold str_ltb. cbn. reflexivity.
    + cbn [all_chars] in Hprev. apply andb_true_iff in Hprev.
      destruct Hprev as [Hc Hs].
      change (getChar (String c s) 0 minChar) with c.
      rewrite string_of_byte_ascii by now apply symbol_ascii.
      rewrite lower_run_cons. cbn [append].
      rewrite str_ltb_cons.
      apply IH; [exact Hs|exact Hmid|].
      now rewrite getChar_cons in Hlt.
Qed.

(** X17. In the plain-string file every rank that [Ranks] returns sorts
    strictly above the lower bound, provided the lower bound is made of
    symbols of the alphabet: each rank is the lower bound's first [k] bytes
    (padded with "0" beyond its end) followed by one symbol of larger order
    than the lower bound's byte at [k]. *)
Theorem X17_simple_ranks_above_lower_bound :
  forall (fuel : nat) (n : Z) (prev next : string) (out : list string)
         (s : string),
    all_chars is_symbol prev = true ->
    Simple.Ranks fuel n prev next = Ok (Some out) ->
    In s out ->
    str_ltb prev s = true
    /\ exists (k : nat) (mid : ascii),
         is_symbol mid = true
         /\ s = lower_run (if String.eqb prev "" then "0" else prev) 0 k
                ++ String mid "".
Proof.
  intros fuel n prev next out s Hprev H Hin.
  unfold Simple.Ranks in H.
  destruct (n >? MaxMultiRank); [discriminate|].
  change (string_of_byte minChar) with "0" in H.
  set (prev' := if String.eqb prev "" then "0" else prev) in *.
  apply simple_loop_shape in H.
  destruct H as (k & midChars & Hm & ->).
  apply in_map_iff in Hin. destruct Hin as (mid & <- & Hin).
  rewrite <- mids_same in Hm.
  pose proof (mids_some _ _ _ _ Hm) as (_ & _ & _ & Hsym).
  rewrite Forall_forall in Hsym. pose proof (Hsym mid Hin) as Hmid.
  apply In_nth_error in Hin. destruct Hin as [i Hi].
  pose proof (mids_between _ _ _ _ _ _ Hm Hi) as (_ & Hlo & _).
  rewrite string_of_byte_ascii by now apply symbol_ascii.
  cbn [append Nat.add] in *.
  assert (all_chars is_symbol prev' = true) as Hprev'.
  { unfold prev'. destruct (String.eqb prev ""); [reflexivity|exact Hprev]. }
  pose proof (above_lower_run k prev' mid Hprev' Hmid Hlo) as Habove.
  split; [|now exists k, mid].
  unfold prev' in *.
  destruct (String.eqb prev "") eqn:E; [|exact Habove].
  apply String.eqb_eq in E. subst prev.
  destruct (lower_run "0" 0 k ++ String mid ""); [discriminate Habove|].
  reflexivity.
Qed.

Lemma X17_simple_ranks_above_lower_bound_witness :
  str_ltb "a" "a0U" = true
  /\ exists (k : nat) (mid : ascii),
       is_symbol mid = true
       /\ "a0U" = lower_run (if String.eqb "a" "" then "0" else "a") 0 k
                  ++ String mid "".
Proof.
  apply (X17_simple_ranks_above_lower_bound 3 1 "a" "a0" ["a0U"] "a0U").
  - reflexivity.
  - vm_compute. reflexivity.
  - left. reflexivity.
Defined.

(** ** The common prefix of the two majors *)

(** A pass that goes round again only appends to [rank]. *)
Lemma body_continue_rank (n bucket majorLen : Z) (st st' : Jira.loop_state) :
  Jira.majorRanks_body n bucket majorLen st = Ok (Jira.Continue st') ->
  exists x : string, Jira.rank st' = Jira.rank st ++ x.
Proof.
  unfold Jira.majorRanks_body.
  destruct (Ascii.eqb _ _).
  { intros H. injection H as <-. now eexists. }
  destruct (Jira.mids n _ _) as [[ch|]| |]; cbn [bind]; try discriminate.
  { destruct (_ =? _); [discriminate|].
    destruct (slice_to _ _); discriminate. }
  rewrite !byteToOrder_ok. cbn [bind].
  destruct (_ >? _); destruct (slice_to _ _); cbn [bind]; try discriminate;
    intros H; injection H as <-; now eexists.
Qed.

Lemma loop_rank_extends (fuel : nat) :
  forall (n bucket majorLen : Z) (st : Jira.loop_state)
         (out : list Jira.Posn) (p : Jira.Posn),
    Jira.majorRanks_loop fuel n bucket majorLen st = Ok (Some out) ->
    In p out ->
    exists t : string, Jira.Major p = Jira.rank st ++ t.
Proof.
  induction fuel as [|fuel IH]; intros n bucket majorLen st out p H Hin;
    [discriminate|].
  cbn [Jira.majorRanks_loop] in H.
  destruct (Jira.majorRanks_body n bucket majorLen st) as [[st'|r]| |] eqn:E;
    cbn [bind] in H; try discriminate.
  - destruct (IH _ _ _ _ _ _ H Hin) as [t Ht].
    destruct (body_continue_rank _ _ _ _ _ E) as [x Hx].
    exists (x ++ t). now rewrite Ht, Hx, app_assoc_str.
  - injection H as ->.
    apply body_returns_some in E.
    destruct E as (midChars & pad & _ & _ & _ & ->).
    apply in_map_iff in Hin. destruct Hin as (mid & <- & _).
    now eexists.
Qed.

(** A run that returns can be resumed from any state it passes through. *)
Lemma loop_resume (k : nat) :
  forall (fuel : nat) (n bucket majorLen : Z) (st st' : Jira.loop_state)
         (r : option (list Jira.Posn)),
    passes k n bucket majorLen st = Some st' ->
    Jira.majorRanks_loop fuel n bucket majorLen st = Ok r ->
    exists fuel' : nat,
      Jira.majorRanks_loop fuel' n bucket majorLen st' = Ok r.
Proof.
  induction k as [|k IH]; intros fuel n bucket majorLen st st' r Hp H.
  - injection Hp as <-. now exists fuel.
  - cbn [passes] in Hp.
    destruct fuel as [|fuel]; [discriminate|].
    cbn [Jira.majorRanks_loop] in H.
    destruct (Jira.majorRanks_body n bucket majorLen st) as [[st1|r1]| |];
      try discriminate.
    cbn [bind] in H. now apply (IH fuel _ _ _ st1).
Qed.

(** X18. Every major that [Ranks] generates starts with the run of ASCII
    bytes that the two bounds' majors have in common at their start. *)
Theorem X18_majors_keep_common_prefix :
  forall (fuel : nat) (n b1 b2 : Z) (q x y m1 m2 : string)
         (out : list Jira.Posn) (p : Jira.Posn),
    all_chars is_ascii q = true ->
    Jira.Ranks fuel n (Some (Jira.mkPosn b1 (q ++ x) m1))
                      (Some (Jira.mkPosn b2 (q ++ y) m2)) = Ok (Some out) ->
    In p out ->
    exists t : string, Jira.Major p = q ++ t.
Proof.
  intros fuel n b1 b2 q x y m1 m2 out p Hq H Hin.
  apply Ranks_some in H. destruct H as (_ & _ & H).
  unfold Jira.majorRanks in H.
  cbn [Jira.lower_bound Jira.upper_bound Jira.Major Jira.Bucket] in H.
  pose proof (common_prefix_passes n b1
                (Jira.max (Z.of_nat (len (q ++ x))) (Z.of_nat (len (q ++ y))))
                q "" x y "" Hq) as Hp.
  cbn [append len String.length Nat.add] in Hp.
  destruct (loop_resume _ _ _ _ _ _ _ _ Hp H) as [fuel' H'].
  apply (loop_rank_extends _ _ _ _ _ _ _ H' Hin).
Qed.

Lemma X18_majors_keep_common_prefix_witness :
  exists t : string, Jira.Major (Jira.mkPosn 0 "006I" ":") = "00" ++ t.
Proof.
  apply (X18_majors_keep_common_prefix
           4 1 0 0 "00" "5z" "6b" ":" ":"
           [Jira.mkPosn 0 "006I" ":"] (Jira.mkPosn 0 "006I" ":")).
  - reflexivity.
  - vm_compute. reflexivity.
  - left. reflexivity.
Defined.

(** ** Room at the first difference *)

Lemma str_ltb_proper_prefix (q t : string) (c : ascii) :
  str_ltb q (q ++ String c t) = true.
Proof.
  induction q as [|d q IH]; [reflexivity|].
  cbn [append]. now rewrite str_ltb_cons.
Qed.


(** X15. When the batch finds room at the first index where the two
    majors differ, every generated major sorts strictly between the two
    majors.  Here the majors share the ASCII run [q]; the lower major may
    end there, the bytes that follow [q] are symbols of the alphabet, and
    [mids] succeeds on them. *)
Theorem X15_between_when_room_at_first_difference :
  forall (fuel : nat) (n b1 b2 : Z) (q xs y m1 m2 : string) (b : ascii)
         (ch : list ascii) (out : list Jira.Posn) (p : Jira.Posn),
    all_chars is_ascii q = true ->
    is_symbol (getChar xs 0 minChar) = true ->
    is_symbol b = true ->
    Jira.mids n (getChar xs 0 minChar) b = Ok (Some ch) ->
    Jira.Ranks fuel n (Some (Jira.mkPosn b1 (q ++ xs) m1))
                      (Some (Jira.mkPosn b2 (q ++ String b y) m2))
    = Ok (Some out) ->
    In p out ->
    str_ltb (q ++ xs) (Jira.Major p) = true
    /\ str_ltb (Jira.Major p) (q ++ String b y) = true.
Proof.
  intros fuel n b1 b2 q xs y m1 m2 b ch out p Hq Ha Hb Hm H Hin.
  apply Ranks_some in H. destruct H as (_ & _ & H).
  unfold Jira.majorRanks in H.
  cbn [Jira.lower_bound Jira.upper_bound Jira.Major Jira.Bucket] in H.
  set (majorLen := Jira.max _ _) in H.
  pose proof (common_prefix_passes n b1 majorLen q "" xs (String b y) "" Hq)
    as Hp.
  cbn [append len String.length Nat.add] in Hp.
  destruct (loop_resume _ _ _ _ _ _ _ _ Hp H) as [fuel' H'].
  destruct fuel' as [|fuel']; [discriminate|].
  cbn [Jira.majorRanks_loop] in H'.
  unfold Jira.majorRanks_body in H'.
  cbn [Jira.prevMajor Jira.nextMajor Jira.rank Jira.i] in H'.
  fold (len q) in H'.
  rewrite getChar_after, getChar_app_head in H'.
  rewrite (mids_some_differ _ _ _ _ Hm), Hm in H'. cbn [bind] in H'.
  destruct (_ =? majorLen); [discriminate|].
  destruct (slice_to Jira.trailer _) as [tr| |]; cbn [bind] in H';
    try discriminate.
  injection H' as <-.
  apply in_map_iff in Hin. destruct Hin as (mid & <- & Hin).
  cbn [Jira.Major].
  pose proof (mids_some _ _ _ _ Hm) as (_ & _ & _ & Hsym).
  rewrite Forall_forall in Hsym. pose proof (Hsym mid Hin) as Hmid.
  apply In_nth_error in Hin. destruct Hin as [k Hk].
  pose proof (mids_between _ _ _ _ _ _ Hm Hk) as (_ & Hlo & Hhi).
  rewrite string_of_byte_ascii by now apply symbol_ascii.
  cbn [append]. split.
  - destruct xs as [|a x].
    + rewrite app_empty_r. apply str_ltb_proper_prefix.
    + apply str_ltb_after_prefix.
      change (getChar (String a x) 0 minChar) with a in *.
      now apply order_lt_bytes.
  - apply str_ltb_after_prefix. now apply order_lt_bytes.
Qed.

Lemma X15_between_when_room_at_first_difference_witness :
  str_ltb ("i0" ++ "a") (Jira.Major (Jira.mkPosn 1 "i0i" ":")) = true
  /\ str_ltb (Jira.Major (Jira.mkPosn 1 "i0i" ":")) ("i0" ++ String "r" "")
     = true.
Proof.
  apply (X15_between_when_room_at_first_difference
           3 1 1 1 "i0" "a" "" ":" ":" "r"%char ["i"%char]
           [Jira.mkPosn 1 "i0i" ":"]).
  - reflexivity.
  - reflexivity.
  - reflexivity.
  - vm_compute. reflexivity.
  - vm_compute. reflexivity.
  - left. reflexivity.
Defined.

(** The plain-string loop over a common run of bytes. *)
Lemma simple_loop_common_prefix (q : string) :
  forall (fuel : nat) (n : Z) (p x y r : string)
         (res : option (list string)),
    Simple.Ranks_loop fuel n (p ++ q ++ x) (p ++ q ++ y) r (len p) = Ok res ->
    exists (fuel' : nat) (r' : string),
      Simple.Ranks_loop fuel' n (p ++ q ++ x) (p ++ q ++ y) r'
        (len p + len q) = Ok res
      /\ (all_chars is_ascii q = true -> r' = r ++ q).
Proof.
  induction q as [|c q IH]; intros fuel n p x y r res H.
  - exists fuel, r. cbn [len String.length].
    rewrite Nat.add_0_r. split; [exact H|].
    intros _. now rewrite app_empty_r.
  - destruct fuel as [|fuel]; [discriminate|].
    cbn [Simple.Ranks_loop] in H. cbn [append] in H.
    rewrite !getChar_app_head, Ascii.eqb_refl in H.
    specialize (IH fuel n (p ++ String c "") x y
                   (r ++ string_of_byte c) res).
    rewrite !app_assoc_str in IH. cbn [append] in IH.
    rewrite len_app in IH. cbn [len String.length] in IH.
    rewrite Nat.add_1_r in IH. unfold len in *.
    destruct (IH H) as (fuel' & r' & H' & Hr').
    exists fuel', r'. cbn [String.length].
    replace (String.length p + S (String.length q))%nat
      with (S (String.length p) + String.length q)%nat by lia.
    split; [exact H'|].
    intros Hq. cbn [all_chars] in Hq. apply andb_true_iff in Hq.
    destruct Hq as [Hc Hq]. unfold is_ascii in Hc. tests.
    rewrite (Hr' Hq), string_of_byte_ascii by exact Hc.
    reflexivity.
Qed.

(** X19. The same in the plain-string file: when the batch finds room at
    the first index where the two bounds differ, every rank returned sorts
    strictly between the two bounds. *)
Theorem X19_simple_between_when_room_at_first_difference :
  forall (fuel : nat) (n : Z) (q xs y : string) (b : ascii)
         (ch : list ascii) (out : list string) (s : string),
    all_chars is_ascii q = true ->
    q ++ xs <> "" ->
    is_symbol (getChar xs 0 minChar) = true ->
    is_symbol b = true ->
    Simple.mids n (getChar xs 0 minChar) b = Ok (Some ch) ->
    Simple.Ranks fuel n (q ++ xs) (q ++ String b y) = Ok (Some out) ->
    In s out ->
    str_ltb (q ++ xs) s = true /\ str_ltb s (q ++ String b y) = true.
Proof.
  intros fuel n q xs y b ch out s Hq Hne Ha Hb Hm H Hin.
  unfold Simple.Ranks in H.
  destruct (n >? MaxMultiRank); [discriminate|].
  assert (String.eqb (q ++ xs) "" = false) as E1 by now apply String.eqb_neq.
  assert (String.eqb (q ++ String b y) "" = false) as E2.
  { apply String.eqb_neq. destruct q; discriminate. }
  rewrite E1, E2 in H.
  apply (simple_loop_common_prefix q _ _ "" xs (String b y) "") in H.
  destruct H as (fuel' & r' & H & Hr').
  specialize (Hr' Hq). cbn [append len String.length Nat.add] in *.
  subst r'.
  destruct fuel' as [|fuel']; [discriminate|].
  cbn [Simple.Ranks_loop] in H. fold (len q) in H.
  rewrite getChar_after, getChar_app_head in H.
  rewrite <- mids_same in Hm.
  rewrite (mids_some_differ _ _ _ _ Hm) in H.
  rewrite <- mids_same, Hm in H. cbn [bind] in H.
  injection H as <-.
  apply in_map_iff in Hin. destruct Hin as (mid & <- & Hin).
  pose proof (mids_some _ _ _ _ Hm) as (_ & _ & _ & Hsym).
  rewrite Forall_forall in Hsym. pose proof (Hsym mid Hin) as Hmid.
  apply In_nth_error in Hin. destruct Hin as [k Hk].
  pose proof (mids_between _ _ _ _ _ _ Hm Hk) as (_ & Hlo & Hhi).
  rewrite string_of_byte_ascii by now apply symbol_ascii.
  split.
  - destruct xs as [|a x].
    + rewrite app_empty_r. apply str_ltb_proper_prefix.
    + apply str_ltb_after_prefix.
      change (getChar (String a x) 0 minChar) with a in *.
      now apply order_lt_bytes.
  - apply str_ltb_after_prefix. now apply order_lt_bytes.
Qed.

Lemma X19_simple_between_when_room_at_first_difference_witness :
  str_ltb ("i0" ++ "") "i0Q" = true
  /\ str_ltb "i0Q" ("i0" ++ String "r" "x") = true.
Proof.
  apply (X19_simple_between_when_room_at_first_difference
           3 1 "i0" "" "x" "r"%char ["Q"%char] ["i0Q"]).
  - reflexivity.
  - discriminate.
  - reflexivity.
  - reflexivity.
  - vm_compute. reflexivity.
  - vm_compute. reflexivity.
  - left. reflexivity.
Defined.

(** ** Instances of the termination, no-room and ordering lemmas *)

Lemma jira_Ranks_terminates_witness :
  Jira.Ranks 5 1 (Some (Jira.mkPosn 0 "005z" ":"))
                 (Some (Jira.mkPosn 0 "006b" ":")) <> OutOfFuel.
Proof.
  apply (jira_Ranks_terminates
           5 1 (Some (Jira.mkPosn 0 "005z" ":"))
           (Some (Jira.mkPosn 0 "006b" ":"))).
  - lia.
  - reflexivity.
  - reflexivity.
  - vm_compute. lia.
Defined.

Lemma simple_Ranks_terminates_witness :
  Simple.Ranks 3 60 "a" "a0" <> OutOfFuel.
Proof.
  apply (simple_Ranks_terminates 3 60 "a" "a0").
  - lia.
  - vm_compute. lia.
Defined.

Lemma last_byte_no_room_witness :
  Jira.majorRanks (len "i0" + (2 + 0)) 1
    (Jira.mkPosn 0 ("i0" ++ String "a" "") ":")
    (Jira.mkPosn 0 ("i0" ++ String "b" "") ":") = Ok None
  /\ Jira.Ranks (len "i0" + (2 + 0)) 1
       (Some (Jira.mkPosn 0 ("i0" ++ String "a" "") ":"))
       (Some (Jira.mkPosn 0 ("i0" ++ String "b" "") ":")) = Panic Todo.
Proof.
  apply (last_byte_no_room 0 1 0 0 "i0" ":" ":" "a"%char "b"%char).
  - lia.
  - reflexivity.
  - reflexivity.
  - reflexivity.
  - vm_compute. reflexivity.
Defined.

Lemma ranks_increasing_witness :
  Jira.posn_ltb (Jira.mkPosn 0 "F" ":") (Jira.mkPosn 0 "j" ":") = true.
Proof.
  apply (ranks_increasing
           1 3 (Some (Jira.mkPosn 0 "0" ":")) (Some (Jira.mkPosn 0 "z" ":"))
           [Jira.mkPosn 0 "F" ":"; Jira.mkPosn 0 "U" ":"; Jira.mkPosn 0 "j" ":"]
           eq_refl 0%nat 2%nat).
  - lia.
  - reflexivity.
  - reflexivity.
Defined.

Lemma simple_ranks_increasing_witness :
  str_ltb "F" "j" = true.
Proof.
  apply (simple_ranks_increasing 1 3 "0" "z" ["F"; "U"; "j"]
                                 eq_refl 0%nat 2%nat).
  - lia.
  - reflexivity.
  - reflexivity.
Defined.

(** ** Ranks above the upper bound *)



(** X25. For a batch of 0 to 60: when the two majors share an ASCII run,
    the upper major ends with one more byte, which is below 128 and differs
    from the lower major's byte at that index, the batch finds no room
    between these two bytes, and the lower major goes on for 1 to 9 bytes
    after its own, then the lower major is rewritten to the upper one and
    the batch is placed after it: generation succeeds with [n] positions,
    and every generated major extends the upper major and so sorts above
    the upper bound. *)
Theorem X25_ranks_above_upper_bound :
  forall (fuel : nat) (n b1 b2 : Z) (q x m1 m2 : string) (a b : ascii),
    0 <= n <= 60 ->
    all_chars is_ascii q = true ->
    is_ascii b = true ->
    Ascii.eqb a b = false ->
    Jira.mids n a b = Ok None ->
    (1 <= len x <= 9)%nat ->
    exists out : list Jira.Posn,
      Jira.Ranks (len q + (2 + fuel)) n
        (Some (Jira.mkPosn b1 (q ++ String a x) m1))
        (Some (Jira.mkPosn b2 (q ++ String b "") m2)) = Ok (Some out)
      /\ Z.of_nat (List.length out) = n
      /\ forall p : Jira.Posn,
           In p out ->
           (exists t, Jira.Major p = (q ++ String b "") ++ t)
           /\ str_ltb (q ++ String b "") (Jira.Major p) = true.
Proof.
  intros fuel n b1 b2 q x m1 m2 a b Hn Hq Hb Hab Hm Hx.
  destruct (mids_defaults_room n Hn) as [ch Hroom].
  pose proof Hroom as Hj. rewrite <- mids_same in Hj.
  pose proof (mids_some _ _ _ _ Hj) as (_ & _ & Hlen & Hsym).
  rewrite Forall_forall in Hsym.
  set (majorLen := Jira.max (Z.of_nat (len (q ++ String a x)))
                            (Z.of_nat (len (q ++ String b "")))).
  assert (majorLen = Z.of_nat (len q) + 1 + Z.of_nat (len x)) as HmajorLen.
  { unfold majorLen, Jira.max. rewrite !len_app.
    cbn [len String.length]. fold (len x).
    destruct (_ >? _) eqn:E; tests; lia. }
  assert (exists tr,
             slice_to Jira.trailer
               (majorLen - 1 - Z.of_nat (len (q ++ String b ""))) = Ok tr)
    as [tr Htr].
  { apply slice_trailer_short. rewrite HmajorLen, len_app.
    cbn [len String.length]. lia. }
  exists (map (fun mid =>
                 Jira.mkPosn b1
                   ((q ++ String b "") ++ string_of_byte mid ++ tr) ":") ch).
  split; [|split].
  - unfold Jira.Ranks.
    destruct (n >? MaxMultiRank) eqn:E;
      [tests; change MaxMultiRank with 61 in E; lia|].
    cbn [Jira.lower_bound Jira.upper_bound Jira.Major].
    assert (String.eqb (q ++ String a x) (q ++ String b "") = false) as ->.
    { apply String.eqb_neq. intros Heq. apply app_inv_head_str in Heq.
      injection Heq as -> _. now rewrite Ascii.eqb_refl in Hab. }
    cbn [negb].
    unfold Jira.majorRanks. cbn [Jira.Major Jira.Bucket]. fold majorLen.
    pose proof (common_prefix_passes n b1 majorLen q "" (String a x)
                  (String b "") "" Hq) as Hp.
    cbn [append len String.length Nat.add] in Hp. fold (len q) in Hp.
    rewrite (loop_passes _ _ _ _ _ _ _ Hp).
    (* the fork at the last byte of the upper major *)
    cbn [Nat.add Jira.majorRanks_loop].
    unfold Jira.majorRanks_body at 1.
    cbn [Jira.prevMajor Jira.nextMajor Jira.rank Jira.i].
    rewrite !getChar_app_head, Hab, Hm. cbn [bind].
    rewrite (getChar_default (q ++ String b "") (len q + 1))
      by (rewrite len_app; cbn [len String.length]; lia).
    rewrite !byteToOrder_ok. cbn [bind].
    pose proof (order_range
                  (getChar (q ++ String a x) (len q + 1) minChar)) as Ho.
    change Jira._byteToOrder with Simple.byteToOrder in *.
    set (o := Simple.byteToOrder
                (getChar (q ++ String a x) (len q + 1) minChar)) in *.
    assert ((wrap8 (MaxMultiRank - o) >? Simple.byteToOrder maxChar) = false)
      as ->.
    { change MaxMultiRank with 61. change (Simple.byteToOrder maxChar) with 61.
      unfold wrap8. rewrite Z.mod_small by lia.
      destruct (61 - o >? 61) eqn:Egt; [tests; lia|reflexivity]. }
    assert (slice_to (q ++ String a x) (Z.of_nat (len q)) = Ok q) as ->.
    { unfold slice_to.
      destruct (Z.of_nat (len q) <? 0) eqn:E1; [tests; lia|].
      destruct (Z.of_nat (len (q ++ String a x)) <? Z.of_nat (len q)) eqn:E2.
      - tests. rewrite len_app in E2. lia.
      - cbn [orb]. now rewrite Nat2Z.id, prefix_app. }
    cbn [bind].
    unfold is_ascii in Hb. tests.
    rewrite (string_of_byte_ascii b) by exact Hb.
    (* the pass beyond the end of both majors *)
    unfold Jira.majorRanks_body.
    cbn [Jira.prevMajor Jira.nextMajor Jira.rank Jira.i].
    rewrite !(getChar_default _ (S (len q)))
      by (rewrite len_app; cbn [len String.length]; lia).
    change (Ascii.eqb minChar maxChar) with false. cbv iota.
    rewrite Hj. cbn [bind].
    destruct (Z.of_nat (len (q ++ String b "")) =? majorLen) eqn:E3.
    { tests. rewrite len_app in E3. cbn [len String.length] in E3.
      fold (len x) in HmajorLen. lia. }
    rewrite Htr. reflexivity.
  - now rewrite length_map.
  - intros p Hin. apply in_map_iff in Hin. destruct Hin as (mid & <- & Hin).
    cbn [Jira.Major].
    rewrite string_of_byte_ascii by (apply symbol_ascii, Hsym, Hin).
    cbn [append].
    split; [now eexists|apply str_ltb_proper_prefix].
Qed.

Lemma X25_ranks_above_upper_bound_witness :
  exists out : list Jira.Posn,
    Jira.Ranks (len "" + (2 + 0)) 1
      (Some (Jira.mkPosn 0 ("" ++ String "a" "00") ":"))
      (Some (Jira.mkPosn 0 ("" ++ String "b" "") ":")) = Ok (Some out)
    /\ Z.of_nat (List.length out) = 1
    /\ forall p : Jira.Posn,
         In p out ->
         (exists t, Jira.Major p = ("" ++ String "b" "") ++ t)
         /\ str_ltb ("" ++ String "b" "") (Jira.Major p) = true.
Proof.
  apply (X25_ranks_above_upper_bound 0 1 0 0 "" "00" ":" ":" "a"%char "b"%char).
  - lia.
  - reflexivity.
  - reflexivity.
  - reflexivity.
  - vm_compute. reflexivity.
  - vm_compute. lia.
Defined.
